(** * PCA9557 I2C I/O expander driver (pca9557.py): model and properties

    The driver is MicroPython code that talks to an 8-bit I/O expander
    through a [machine.I2C] object.  Python integers are unbounded, so they
    are modelled by [Z] with [Z.land], [Z.lor], [Z.lnot] and [Z.shiftl];
    a [bytes] object is a [list byte].  Methods run in a small state and
    exception monad over a world that holds the state of the bus, the list
    of bus transactions issued so far and the lines printed so far.
    Pin numbers, modes, levels and polarities are integers, as the
    docstrings of the methods say. *)

From Stdlib Require Import ZArith List Bool Lia.
From Stdlib Require Strings.Byte Strings.Ascii Strings.String.
Import ListNotations.
Import String.StringSyntax Ascii.AsciiSyntax.
Local Open Scope Z_scope.
Delimit Scope string_scope with string.
Delimit Scope char_scope with char.

Abbreviation byte := Byte.byte.

(** ** Module constants (pca9557.py, lines 17-29 and 368-371) *)

Definition PCA9557_ADDR : Z := 0x19.
Definition PCA9557_INPUT_REG : Z := 0x00.
Definition PCA9557_OUTPUT_REG : Z := 0x01.
Definition PCA9557_POLARITY_REG : Z := 0x02.
Definition PCA9557_CONFIG_REG : Z := 0x03.

Definition PIN_LOW : Z := 0.
Definition PIN_HIGH : Z := 1.
Definition PIN_OUTPUT : Z := 0.
Definition PIN_INPUT : Z := 1.
Definition PIN_NON_INVERTED : Z := 0.
Definition PIN_INVERTED : Z := 1.

Definition IN : Z := 1.
Definition OUT : Z := 0.
Definition PULL_UP : Z := 1.
Definition PULL_DOWN : Z := 2.

(** ** Python values used by the driver *)

(** The exceptions that can occur below [except Exception]. *)
Inductive Exception : Type :=
| OSError (errno : Z)
| IndexError
| ValueError.

(** Integer value of one element of a [bytes] object. *)
Definition byte_to_Z (b : byte) : Z := Z.of_N (Byte.to_N b).

(** [bytes([v1, ..., vn])]: every element must be in [range(256)], else
    [ValueError]. *)
Fixpoint bytes (l : list Z) : Exception + list byte :=
  match l with
  | [] => inr []
  | v :: l' =>
      if 0 <=? v then
        match Byte.of_N (Z.to_N v) with
        | Some b =>
            match bytes l' with
            | inr bs => inr (b :: bs)
            | inl e => inl e
            end
        | None => inl ValueError
        end
      else inl ValueError
  end.

(** Truth value of a Python integer. *)
Definition truthy (v : Z) : bool := negb (v =? 0).

(** The chained comparison [0 <= pin <= 7]. *)
Definition pin_in_range (pin : Z) : bool := (0 <=? pin) && (pin <=? 7).

(** ** The bus transport *)

(** The two methods of [machine.I2C] the driver calls.  [T] is the state of
    the bus and of the devices behind it; [inl e] means the call raised
    [e]. *)
Class I2C (T : Type) : Type := {
  readfrom_mem : Z -> Z -> Z -> T -> (Exception + list byte) * T;
  writeto_mem : Z -> Z -> list byte -> T -> (Exception + unit) * T
}.

(** A bus transaction as a recording mock would log it. *)
Inductive BusCall : Type :=
| ReadFromMem (addr reg nbytes : Z)
| WriteToMem (addr reg : Z) (data : list byte).

(** The lines the driver can print, one constructor per [print] of the
    source, with the values the format string interpolates. *)
Inductive Diag : Type :=
| InitialState (config output : Z)
| ConfiguredAllOutputs
| OutputsAllHigh
| Verified (config output : Z)
| InitFailed (e : Exception)
| Traceback (e : Exception)
| WriteRegFailed (reg : Z) (e : Exception)
| ReadRegFailed (reg : Z) (e : Exception)
| InvalidPin (pin : Z)
| PinLevelSet (pin : Z) (high : bool) (current new_value : Z)
| PinCreated (pin_num : Z).

Record World (T : Type) : Type := mkWorld {
  bus : T;
  calls : list BusCall;
  console : list Diag
}.
Arguments mkWorld {T} _ _ _.
Arguments bus {T} _.
Arguments calls {T} _.
Arguments console {T} _.

(** ** The monad of driver methods *)

Definition M (T A : Type) : Type := World T -> (Exception + A) * World T.

Definition ret {T A} (a : A) : M T A := fun w => (inr a, w).

Definition raise {T A} (e : Exception) : M T A := fun w => (inl e, w).

Definition bind {T A B} (m : M T A) (k : A -> M T B) : M T B :=
  fun w =>
    match m w with
    | (inr a, w') => k a w'
    | (inl e, w') => (inl e, w')
    end.

(** [try: body except Exception as e: handler e]. *)
Definition try_except {T A} (body : M T A) (handler : Exception -> M T A)
  : M T A :=
  fun w =>
    match body w with
    | (inr a, w') => (inr a, w')
    | (inl e, w') => handler e w'
    end.

Definition lift {T A} (r : Exception + A) : M T A := fun w => (r, w).

Definition print {T} (d : Diag) : M T unit :=
  fun w => (inr tt, mkWorld (bus w) (calls w) (console w ++ [d])).

Definition when {T} (c : bool) (m : M T unit) : M T unit :=
  if c then m else ret tt.

Declare Scope py_scope.
Delimit Scope py_scope with py.
Notation "x <- m ;; k" := (bind m (fun x => k))
  (at level 100, m at next level, right associativity) : py_scope.
Notation "m ;; k" := (bind m (fun _ => k))
  (at level 100, right associativity) : py_scope.
Local Open Scope py_scope.

(** Calls on the [i2c] object: the call is logged, then the transport
    runs. *)
Definition i2c_readfrom_mem {T} `{I2C T} (addr reg nbytes : Z)
  : M T (list byte) :=
  fun w =>
    let '(r, b) := readfrom_mem addr reg nbytes (bus w) in
    (r, mkWorld b (calls w ++ [ReadFromMem addr reg nbytes]) (console w)).

Definition i2c_writeto_mem {T} `{I2C T} (addr reg : Z) (data : list byte)
  : M T unit :=
  fun w =>
    let '(r, b) := writeto_mem addr reg data (bus w) in
    (r, mkWorld b (calls w ++ [WriteToMem addr reg data]) (console w)).

(** ** class PCA9557 *)

Module PCA9557.

(** The attributes set by [__init__]; the [i2c] attribute is the
    transport instance. *)
Record t : Type := new { addr : Z; debug : bool }.

Section Methods.
Context {T : Type} {i2c : I2C T}.

(** Lines 84-100. *)
Definition _write_reg (self : t) (reg value : Z) : M T bool :=
  try_except
    (data <- lift (bytes [value]) ;;
     i2c_writeto_mem (addr self) reg data ;;
     ret true)
    (fun e =>
       when (debug self) (print (WriteRegFailed reg e)) ;;
       ret false).

(** Lines 102-117. *)
Definition _read_reg (self : t) (reg : Z) : M T Z :=
  try_except
    (data <- i2c_readfrom_mem (addr self) reg 1 ;;
     match data with
     | b :: _ => ret (byte_to_Z b)
     | [] => raise IndexError
     end)
    (fun e =>
       when (debug self) (print (ReadRegFailed reg e)) ;;
       ret 0).

(** Lines 42-82.  The object is returned when the body of [__init__]
    completes. *)
Definition __init__ (addr : Z) (debug : bool) : M T t :=
  let self := new addr debug in
  try_except
    (config <- _read_reg self PCA9557_CONFIG_REG ;;
     output <- _read_reg self PCA9557_OUTPUT_REG ;;
     when debug (print (InitialState config output)) ;;
     _write_reg self PCA9557_CONFIG_REG 0x00 ;;
     when debug (print ConfiguredAllOutputs) ;;
     _write_reg self PCA9557_OUTPUT_REG 0xFF ;;
     when debug (print OutputsAllHigh) ;;
     (if debug then
        config <- _read_reg self PCA9557_CONFIG_REG ;;
        output <- _read_reg self PCA9557_OUTPUT_REG ;;
        print (Verified config output)
      else ret tt) ;;
     ret self)
    (fun e =>
       print (InitFailed e) ;;
       when debug (print (Traceback e)) ;;
       raise e).

(** Lines 137-160. *)
Definition set_pin_mode (self : t) (pin mode : Z) : M T bool :=
  if negb (pin_in_range pin) then
    when (debug self) (print (InvalidPin pin)) ;;
    ret false
  else
    current <- _read_reg self PCA9557_CONFIG_REG ;;
    let new_value :=
      if mode =? PIN_OUTPUT
      then Z.land current (Z.lnot (Z.shiftl 1 pin))
      else Z.lor current (Z.shiftl 1 pin) in
    _write_reg self PCA9557_CONFIG_REG new_value.

(** Lines 162-188. *)
Definition set_pin_value (self : t) (pin value : Z) : M T bool :=
  if negb (pin_in_range pin) then
    when (debug self) (print (InvalidPin pin)) ;;
    ret false
  else
    current <- _read_reg self PCA9557_OUTPUT_REG ;;
    let new_value :=
      if value =? PIN_LOW
      then Z.land current (Z.lnot (Z.shiftl 1 pin))
      else Z.lor current (Z.shiftl 1 pin) in
    result <- _write_reg self PCA9557_OUTPUT_REG new_value ;;
    when (result && debug self)
      (print (PinLevelSet pin (truthy value) current new_value)) ;;
    ret result.

(** Lines 190-205. *)
Definition get_pin_value (self : t) (pin : Z) : M T Z :=
  if negb (pin_in_range pin) then
    when (debug self) (print (InvalidPin pin)) ;;
    ret (-1)
  else
    value <- _read_reg self PCA9557_INPUT_REG ;;
    ret (if truthy (Z.land value (Z.shiftl 1 pin))
         then PIN_HIGH else PIN_LOW).

(** Lines 207-230. *)
Definition set_pin_polarity (self : t) (pin polarity : Z) : M T bool :=
  if negb (pin_in_range pin) then
    when (debug self) (print (InvalidPin pin)) ;;
    ret false
  else
    current <- _read_reg self PCA9557_POLARITY_REG ;;
    let new_value :=
      if polarity =? PIN_NON_INVERTED
      then Z.land current (Z.lnot (Z.shiftl 1 pin))
      else Z.lor current (Z.shiftl 1 pin) in
    _write_reg self PCA9557_POLARITY_REG new_value.

(** Lines 252-297: the compatibility aliases. *)
Definition write_output (self : t) (pin value : Z) : M T bool :=
  set_pin_value self pin value.

Definition pin_high (self : t) (pin : Z) : M T bool :=
  set_pin_value self pin PIN_HIGH.

Definition pin_low (self : t) (pin : Z) : M T bool :=
  set_pin_value self pin PIN_LOW.

Definition pin_value (self : t) (pin value : Z) : M T bool :=
  set_pin_value self pin (if truthy value then PIN_HIGH else PIN_LOW).

(** Lines 119-135.  [range(7, -1, -1)] is the list 7, 6, ..., 0. *)
Definition _format_binary (self : t) (value : Z) : String.string :=
  fold_left
    (fun binary i =>
       if truthy (Z.land value (Z.shiftl 1 i))
       then String.append binary "1"
       else String.append binary "0")
    [7; 6; 5; 4; 3; 2; 1; 0] ""%string.

(** The five lines of the register dump of [read_all_pins], with the value
    and the binary string each one interpolates. *)
Inductive StatusLine : Type :=
| StatusHeader
| StatusInput (value : Z) (binary : String.string)
| StatusOutput (value : Z) (binary : String.string)
| StatusConfig (value : Z) (binary : String.string)
| StatusPolarity (value : Z) (binary : String.string).

(** Lines 232-250.  The dump is printed after the four reads and right
    before the method returns; the model returns its lines beside the
    tuple, so what the call prints is what the reads put on the console
    followed by these lines. *)
Definition read_all_pins (self : t)
  : M T ((Z * Z * Z * Z) * list StatusLine) :=
  input_val <- _read_reg self PCA9557_INPUT_REG ;;
  output_val <- _read_reg self PCA9557_OUTPUT_REG ;;
  config_val <- _read_reg self PCA9557_CONFIG_REG ;;
  polarity_val <- _read_reg self PCA9557_POLARITY_REG ;;
  ret ((input_val, output_val, config_val, polarity_val),
       if debug self
       then [ StatusHeader;
              StatusInput input_val (_format_binary self input_val);
              StatusOutput output_val (_format_binary self output_val);
              StatusConfig config_val (_format_binary self config_val);
              StatusPolarity polarity_val
                (_format_binary self polarity_val) ]
       else []).

End Methods.
End PCA9557.

(** ** class PCA9557Pin *)

(** What [PCA9557Pin.value] returns: the [bool] of a write or the [int] of
    a read. *)
Inductive PyVal : Type :=
| PyBool (b : bool)
| PyInt (z : Z).

Module PCA9557Pin.

Record t : Type := new {
  pca9557 : PCA9557.t;
  pin_num : Z;
  debug : bool
}.

Section Methods.
Context {T : Type} {i2c : I2C T}.

(** Lines 305-319. *)
Definition __init__ (pca9557 : PCA9557.t) (pin_num : Z) (debug : bool)
  : M T t :=
  PCA9557.set_pin_mode pca9557 pin_num PIN_OUTPUT ;;
  when debug (print (PinCreated pin_num)) ;;
  ret (new pca9557 pin_num debug).

(** Lines 321-335. *)
Definition on (self : t) : M T bool :=
  PCA9557.set_pin_value (pca9557 self) (pin_num self) PIN_HIGH.

Definition off (self : t) : M T bool :=
  PCA9557.set_pin_value (pca9557 self) (pin_num self) PIN_LOW.

(** Lines 337-349; [val] is [None] or an integer. *)
Definition value (self : t) (val : option Z) : M T PyVal :=
  match val with
  | Some v =>
      r <- PCA9557.set_pin_value (pca9557 self) (pin_num self)
             (if truthy v then PIN_HIGH else PIN_LOW) ;;
      ret (PyBool r)
  | None =>
      r <- PCA9557.get_pin_value (pca9557 self) (pin_num self) ;;
      ret (PyInt r)
  end.

(** Lines 351-365; [pull] is ignored. *)
Definition init (self : t) (mode pull : option Z) : M T t :=
  match mode with
  | Some m =>
      let pin_mode := if m =? 1 then PIN_INPUT else PIN_OUTPUT in
      PCA9557.set_pin_mode (pca9557 self) (pin_num self) pin_mode ;;
      ret self
  | None => ret self
  end.

End Methods.
End PCA9557Pin.

(** ** Transports used to exercise the driver *)

(** A simulated device: the four registers of the chip.  Every read and
    every write succeeds; the input register ignores writes, and so does
    any register number the chip does not have (which reads as zero). *)
Module RegFile.

Record t : Type := mk {
  input : byte;
  output : byte;
  polarity : byte;
  config : byte
}.

Definition get (rf : t) (reg : Z) : byte :=
  if reg =? PCA9557_INPUT_REG then input rf
  else if reg =? PCA9557_OUTPUT_REG then output rf
  else if reg =? PCA9557_POLARITY_REG then polarity rf
  else if reg =? PCA9557_CONFIG_REG then config rf
  else Byte.x00.

Definition set (rf : t) (reg : Z) (b : byte) : t :=
  if reg =? PCA9557_OUTPUT_REG
  then mk (input rf) b (polarity rf) (config rf)
  else if reg =? PCA9557_POLARITY_REG
  then mk (input rf) (output rf) b (config rf)
  else if reg =? PCA9557_CONFIG_REG
  then mk (input rf) (output rf) (polarity rf) b
  else rf.

#[global] Instance i2c : I2C t := {|
  readfrom_mem _ reg nbytes rf :=
    (inr (repeat (get rf reg) (Z.to_nat nbytes)), rf);
  writeto_mem _ reg data rf :=
    (inr tt, fold_left (fun rf' b => set rf' reg b) data rf)
|}.

(** An external signal drives the input pins. *)
Definition drive_input (rf : t) (b : byte) : t :=
  mk b (output rf) (polarity rf) (config rf).

End RegFile.

(** The same device behind a bus on which reads, writes or both raise
    [OSError] (errno 19, no such device). *)
Module Faulty.

Record t : Type := mk {
  regs : RegFile.t;
  read_fails : bool;
  write_fails : bool
}.

#[global] Instance i2c : I2C t := {|
  readfrom_mem a reg nbytes s :=
    if read_fails s then (inl (OSError 19), s)
    else
      let '(r, rf) := readfrom_mem a reg nbytes (regs s) in
      (r, mk rf (read_fails s) (write_fails s));
  writeto_mem a reg data s :=
    if write_fails s then (inl (OSError 19), s)
    else
      let '(r, rf) := writeto_mem a reg data (regs s) in
      (r, mk rf (read_fails s) (write_fails s))
|}.

End Faulty.

(** A world in which nothing has happened yet. *)
Definition boot {T} (b : T) : World T := mkWorld b [] [].

(** The register file the scenario of the specification starts from:
    config 0xFF, output, input and polarity 0x00. *)
Definition scenario_regs : RegFile.t :=
  RegFile.mk Byte.x00 Byte.x00 Byte.x00 Byte.xff.

(** A bus that accepts reads and refuses every write. *)
Definition write_refusing_bus : Faulty.t :=
  Faulty.mk scenario_regs false true.

(** An expander object at the default address, debug output off. *)
Definition expander : PCA9557.t := PCA9557.new PCA9557_ADDR false.

(** ** Notions used in the statements *)

(** The value [_read_reg] makes of what the transport answered. *)
Definition read_value (r : Exception + list byte) : Z :=
  match r with
  | inr (b :: _) => byte_to_Z b
  | _ => 0
  end.

Definition succeeded {A} (r : Exception + A) : bool :=
  match r with inr _ => true | inl _ => false end.

(** The bit update rule in the words of the specification:
    [new = mode==0 ? (current & ~(1<<pin)) : (current | (1<<pin))]. *)
Definition spec_bit_update (current pin mode : Z) : Z :=
  if mode =? 0
  then Z.land current (Z.lnot (Z.shiftl 1 pin))
  else Z.lor current (Z.shiftl 1 pin).

(** The transactions a method issued: what it appended to the log. *)
Definition issued {T} (before after : World T) (l : list BusCall) : Prop :=
  calls after = calls before ++ l.

(** The outcome of a read-modify-write of register [reg] at device address
    [a]: one read, then one write of the byte whose value is the updated
    one, to the bus as the read left it; the result is whether the
    transport accepted the write. *)
Definition rmw_outcome {T} `{I2C T} (a reg pin arg : Z) (w : World T)
  (res : (Exception + bool) * World T) : Prop :=
  let r := readfrom_mem a reg 1 (bus w) in
  exists b out,
    byte_to_Z b = spec_bit_update (read_value (fst r)) pin arg /\
    res =
    (inr (succeeded (fst (writeto_mem a reg [b] (snd r)))),
     mkWorld (snd (writeto_mem a reg [b] (snd r)))
             (calls w ++ [ReadFromMem a reg 1; WriteToMem a reg [b]])
             out).

(** The value [_read_reg] would return for register [reg] of the device at
    address [a] in world [w]: the register's current value as the driver
    sees it. *)
Definition current {T} `{I2C T} (a reg : Z) (w : World T) : Z :=
  read_value (fst (readfrom_mem a reg 1 (bus w))).

(** Between [w] and [w'] the driver read register [reg] once and wrote one
    byte of value [nv] back to it, and did nothing else on the bus. *)
Definition written_back {T} `{I2C T} (a reg : Z) (w w' : World T) (nv : Z)
  : Prop :=
  exists b,
    issued w w' [ReadFromMem a reg 1; WriteToMem a reg [b]] /\
    byte_to_Z b = nv.

(** The three read-modify-write setters, each with its register. *)
Definition setters {T} `{I2C T}
  : list ((PCA9557.t -> Z -> Z -> M T bool) * Z) :=
  [ (PCA9557.set_pin_mode, PCA9557_CONFIG_REG);
    (PCA9557.set_pin_value, PCA9557_OUTPUT_REG);
    (PCA9557.set_pin_polarity, PCA9557_POLARITY_REG) ].

(** The start-up sequence of the specification: one read of Config, one
    read of Output, one write of Config = 0x00, one write of
    Output = 0xFF. *)
Definition startup_sequence (a : Z) : list BusCall :=
  [ ReadFromMem a PCA9557_CONFIG_REG 1;
    ReadFromMem a PCA9557_OUTPUT_REG 1;
    WriteToMem a PCA9557_CONFIG_REG [Byte.x00];
    WriteToMem a PCA9557_OUTPUT_REG [Byte.xff] ].

(** The two verification reads of lines 73-76. *)
Definition verification_reads (a : Z) : list BusCall :=
  [ ReadFromMem a PCA9557_CONFIG_REG 1;
    ReadFromMem a PCA9557_OUTPUT_REG 1 ].

(** A bus that refuses every read and accepts writes. *)
Definition read_refusing_bus : Faulty.t :=
  Faulty.mk scenario_regs true false.

(** The character [_format_binary] appends for a bit. *)
Definition bit_char (b : bool) : Ascii.ascii :=
  if b then "1"%char else "0"%char.

(** The byte of a value between 0 and 255. *)
Definition byte_of_Z (v : Z) : byte :=
  match Byte.of_N (Z.to_N v) with
  | Some b => b
  | None => Byte.x00
  end.

(** The simulated device after register [reg] had bit [pin] updated by the
    rule of the setters. *)
Definition regfile_update (rf : RegFile.t) (reg pin arg : Z) : RegFile.t :=
  RegFile.set rf reg
    (byte_of_Z (spec_bit_update (byte_to_Z (RegFile.get rf reg)) pin arg)).

(** Nothing happened on the bus between [w] and [w']: same bus state, no
    transaction issued. *)
Definition untouched {T} (w w' : World T) : Prop :=
  bus w' = bus w /\ calls w' = calls w.

(** ** Bytes and bits *)

Lemma byte_to_Z_range (b : byte) : 0 <= byte_to_Z b < 256.
Proof.
  unfold byte_to_Z. pose proof (Byte.to_N_bounded b). lia.
Qed.

Lemma bytes_of_byte (b : byte) : bytes [byte_to_Z b] = inr [b].
Proof.
  pose proof (byte_to_Z_range b) as Hb. simpl.
  destruct (Z.leb_spec 0 (byte_to_Z b)) as [_ | ?]; [ | lia ].
  unfold byte_to_Z. rewrite N2Z.id, Byte.of_to_N. reflexivity.
Qed.

Lemma bytes_single (v : Z) :
  0 <= v < 256 -> exists b, bytes [v] = inr [b] /\ byte_to_Z b = v.
Proof.
  intros Hv. simpl.
  destruct (Z.leb_spec 0 v) as [_ | ?]; [ | lia ].
  destruct (Byte.of_N (Z.to_N v)) as [b | ] eqn:E.
  - exists b. split; [ reflexivity | ].
    apply Byte.to_of_N in E. unfold byte_to_Z. rewrite E. apply Z2N.id. lia.
  - apply Byte.of_N_None_iff in E. lia.
Qed.

Lemma bytes_single_out_of_range (v : Z) :
  v < 0 \/ 256 <= v -> bytes [v] = inl ValueError.
Proof.
  intros Hv. simpl.
  destruct (Z.leb_spec 0 v) as [? | ?]; [ | reflexivity ].
  destruct (Byte.of_N (Z.to_N v)) as [b | ] eqn:E; [ | reflexivity ].
  apply Byte.to_of_N in E. pose proof (Byte.to_N_bounded b). lia.
Qed.

Lemma high_bits_of_small (x i : Z) :
  0 <= x < 256 -> 8 <= i -> Z.testbit x i = false.
Proof.
  intros Hx Hi.
  rewrite <- (Z.mod_small x (2 ^ 8)) by lia.
  apply Z.mod_pow2_bits_high. lia.
Qed.

Lemma small_of_high_bits (x : Z) :
  0 <= x -> (forall i, 8 <= i -> Z.testbit x i = false) -> x < 256.
Proof.
  intros Hx Hbits.
  assert (E : x mod 2 ^ 8 = x).
  { apply Z.bits_inj'. intros i Hi.
    destruct (Z.lt_ge_cases i 8) as [Hlt | Hge].
    - apply Z.mod_pow2_bits_low. exact Hlt.
    - rewrite Z.mod_pow2_bits_high by lia. symmetry. apply Hbits. exact Hge. }
  pose proof (Z.mod_pos_bound x (2 ^ 8) eq_refl) as B.
  rewrite E in B. lia.
Qed.

Lemma testbit_pin (p i : Z) :
  0 <= p -> Z.testbit (Z.shiftl 1 p) i = (p =? i).
Proof.
  intros Hp. rewrite Z.shiftl_1_l. apply Z.pow2_bits_eqb. exact Hp.
Qed.

(** Bit [i] of the updated value, for every bit position. *)
Lemma spec_bit_update_testbit (c p m i : Z) :
  0 <= p -> 0 <= i ->
  Z.testbit (spec_bit_update c p m) i =
  if p =? i then negb (m =? 0) else Z.testbit c i.
Proof.
  intros Hp Hi. unfold spec_bit_update.
  destruct (m =? 0).
  - rewrite Z.land_spec, Z.lnot_spec, testbit_pin by assumption.
    destruct (p =? i); simpl.
    + apply andb_false_r.
    + apply andb_true_r.
  - rewrite Z.lor_spec, testbit_pin by assumption.
    destruct (p =? i); simpl.
    + apply orb_true_r.
    + apply orb_false_r.
Qed.

Lemma spec_bit_update_range (c p m : Z) :
  0 <= c < 256 -> 0 <= p <= 7 -> 0 <= spec_bit_update c p m < 256.
Proof.
  intros Hc Hp.
  assert (H0 : 0 <= spec_bit_update c p m).
  { unfold spec_bit_update. destruct (m =? 0).
    - apply Z.land_nonneg. left. lia.
    - apply Z.lor_nonneg. split; [ lia | ].
      apply Z.shiftl_nonneg. lia. }
  split; [ exact H0 | ].
  apply small_of_high_bits; [ exact H0 | ].
  intros i Hi.
  rewrite spec_bit_update_testbit by lia.
  destruct (Z.eqb_spec p i) as [-> | _]; [ lia | ].
  apply high_bits_of_small; assumption.
Qed.

Lemma read_value_range (r : Exception + list byte) :
  0 <= read_value r < 256.
Proof.
  destruct r as [e | [ | b l]]; simpl; try lia.
  apply byte_to_Z_range.
Qed.

Lemma pin_in_range_true (p : Z) : 0 <= p <= 7 -> pin_in_range p = true.
Proof. unfold pin_in_range. intros Hp. apply andb_true_intro. lia. Qed.

Lemma pin_in_range_false (p : Z) : p < 0 \/ 7 < p -> pin_in_range p = false.
Proof.
  unfold pin_in_range. intros Hp. apply andb_false_iff. lia.
Qed.

(** ** How the methods run on an arbitrary transport *)

Section Runs.
Context {T : Type} {i2c : I2C T}.
Variable self : PCA9557.t.

Let a := PCA9557.addr self.

(** [_read_reg] never raises: it issues one read and returns the first
    byte of the answer, or 0 when the transport raised or answered
    nothing. *)
Lemma read_reg_run (reg : Z) (w : World T) :
  exists out,
    PCA9557._read_reg self reg w =
    (inr (read_value (fst (readfrom_mem a reg 1 (bus w)))),
     mkWorld (snd (readfrom_mem a reg 1 (bus w)))
             (calls w ++ [ReadFromMem a reg 1]) out).
Proof.
  unfold PCA9557._read_reg, try_except, bind, i2c_readfrom_mem. subst a.
  destruct (readfrom_mem (PCA9557.addr self) reg 1 (bus w))
    as [[e | [ | b l]] s];
    destruct (PCA9557.debug self); simpl; eexists; reflexivity.
Qed.

(** [_write_reg] never raises: for the value of a byte it issues one write
    of that byte and returns whether the transport accepted it. *)
Lemma write_reg_byte_run (reg : Z) (b : byte) (w : World T) :
  exists out,
    PCA9557._write_reg self reg (byte_to_Z b) w =
    (inr (succeeded (fst (writeto_mem a reg [b] (bus w)))),
     mkWorld (snd (writeto_mem a reg [b] (bus w)))
             (calls w ++ [WriteToMem a reg [b]]) out).
Proof.
  unfold PCA9557._write_reg, try_except, bind, lift, i2c_writeto_mem.
  rewrite bytes_of_byte. subst a.
  destruct (writeto_mem (PCA9557.addr self) reg [b] (bus w))
    as [[e | []] s];
    destruct (PCA9557.debug self); simpl; eexists; reflexivity.
Qed.

Lemma write_reg_run (reg v : Z) (w : World T) :
  0 <= v < 256 ->
  exists b out,
    byte_to_Z b = v /\
    PCA9557._write_reg self reg v w =
    (inr (succeeded (fst (writeto_mem a reg [b] (bus w)))),
     mkWorld (snd (writeto_mem a reg [b] (bus w)))
             (calls w ++ [WriteToMem a reg [b]]) out).
Proof.
  intros Hv. destruct (bytes_single v Hv) as (b & _ & Hb).
  destruct (write_reg_byte_run reg b w) as [out E].
  exists b, out. rewrite <- Hb at 2. split; [ exact Hb | exact E ].
Qed.

(** A value that does not fit a byte is not written at all. *)
Lemma write_reg_out_of_range (reg v : Z) (w : World T) :
  v < 0 \/ 256 <= v ->
  exists out,
    PCA9557._write_reg self reg v w =
    (inr false, mkWorld (bus w) (calls w) out).
Proof.
  intros Hv. destruct w as [s l out0].
  unfold PCA9557._write_reg, try_except, bind, lift.
  rewrite (bytes_single_out_of_range v Hv).
  destruct (PCA9557.debug self); simpl; eexists; reflexivity.
Qed.

Ltac run_rmw reg pin arg w Hp :=
  rewrite (pin_in_range_true pin Hp); change (negb true) with false; cbv iota;
  unfold bind at 1;
  destruct (read_reg_run reg w) as [out1 E1]; rewrite E1;
  destruct (write_reg_run reg
              (spec_bit_update
                 (read_value (fst (readfrom_mem a reg 1 (bus w)))) pin arg)
              (mkWorld (snd (readfrom_mem a reg 1 (bus w)))
                       (calls w ++ [ReadFromMem a reg 1]) out1)
              (spec_bit_update_range _ pin arg (read_value_range _) Hp))
    as (b & out2 & Hb & E2);
  cbn [bus calls] in E2; rewrite <- app_assoc in E2; simpl app in E2.

Lemma set_pin_mode_run (pin mode : Z) (w : World T) :
  0 <= pin <= 7 ->
  rmw_outcome a PCA9557_CONFIG_REG pin mode w
              (PCA9557.set_pin_mode self pin mode w).
Proof.
  intros Hp. unfold rmw_outcome, PCA9557.set_pin_mode.
  run_rmw PCA9557_CONFIG_REG pin mode w Hp.
  exists b, out2. split; [ exact Hb | exact E2 ].
Qed.

Lemma set_pin_polarity_run (pin polarity : Z) (w : World T) :
  0 <= pin <= 7 ->
  rmw_outcome a PCA9557_POLARITY_REG pin polarity w
              (PCA9557.set_pin_polarity self pin polarity w).
Proof.
  intros Hp. unfold rmw_outcome, PCA9557.set_pin_polarity.
  run_rmw PCA9557_POLARITY_REG pin polarity w Hp.
  exists b, out2. split; [ exact Hb | exact E2 ].
Qed.

Lemma set_pin_value_run (pin value : Z) (w : World T) :
  0 <= pin <= 7 ->
  rmw_outcome a PCA9557_OUTPUT_REG pin value w
              (PCA9557.set_pin_value self pin value w).
Proof.
  intros Hp. unfold rmw_outcome, PCA9557.set_pin_value.
  run_rmw PCA9557_OUTPUT_REG pin value w Hp.
  exists b. unfold bind at 1.
  change (value =? PIN_LOW) with (value =? 0).
  fold (spec_bit_update
          (read_value (fst (readfrom_mem a PCA9557_OUTPUT_REG 1 (bus w))))
          pin value).
  rewrite E2. unfold bind, when, print, ret.
  destruct (succeeded _ && PCA9557.debug self) eqn:Edbg;
    simpl; eexists; split; solve [ exact Hb | reflexivity ].
Qed.

End Runs.

(** ** Consequences shared by the properties below *)

Lemma truthy_mask (v p : Z) :
  0 <= p -> truthy (Z.land v (Z.shiftl 1 p)) = Z.testbit v p.
Proof.
  intros Hp. unfold truthy.
  destruct (Z.testbit v p) eqn:Ebit.
  - destruct (Z.eqb_spec (Z.land v (Z.shiftl 1 p)) 0) as [E0 | _];
      [ | reflexivity ].
    assert (Hbit : Z.testbit (Z.land v (Z.shiftl 1 p)) p = true).
    { rewrite Z.land_spec, testbit_pin, Z.eqb_refl, Ebit by assumption.
      reflexivity. }
    rewrite E0, Z.bits_0 in Hbit. discriminate.
  - assert (E0 : Z.land v (Z.shiftl 1 p) = 0).
    { apply Z.bits_inj'. intros i Hi.
      rewrite Z.land_spec, testbit_pin, Z.bits_0 by assumption.
      destruct (Z.eqb_spec p i) as [<- | _].
      - rewrite Ebit. reflexivity.
      - apply andb_false_r. }
    rewrite E0. reflexivity.
Qed.

Section Outcomes.
Context {T : Type} {i2c : I2C T}.
Variable self : PCA9557.t.

Let a := PCA9557.addr self.

Lemma setter_run X reg (pin arg : Z) (w : World T) :
  In (X, reg) setters -> 0 <= pin <= 7 ->
  rmw_outcome a reg pin arg w (X self pin arg w).
Proof.
  intros [E | [E | [E | []]]] Hp; injection E as <- <-.
  - apply set_pin_mode_run. exact Hp.
  - apply set_pin_value_run. exact Hp.
  - apply set_pin_polarity_run. exact Hp.
Qed.

Lemma setter_written_back X reg (pin arg : Z) (w : World T) :
  In (X, reg) setters -> 0 <= pin <= 7 ->
  written_back a reg w (snd (X self pin arg w))
               (spec_bit_update (current a reg w) pin arg).
Proof.
  intros HX Hp.
  destruct (setter_run X reg pin arg w HX Hp) as (b & out & Hb & E).
  rewrite E. exists b. split; [ reflexivity | exact Hb ].
Qed.

(** An invalid pin is turned down before the bus is touched. *)
Lemma setter_rejects X reg (pin arg : Z) (w : World T) :
  In (X, reg) setters -> pin < 0 \/ 7 < pin ->
  exists out, X self pin arg w = (inr false, mkWorld (bus w) (calls w) out).
Proof.
  intros [E | [E | [E | []]]] Hp; injection E as <- <-;
    destruct w as [s l out0];
    unfold PCA9557.set_pin_mode, PCA9557.set_pin_value,
      PCA9557.set_pin_polarity;
    rewrite (pin_in_range_false pin Hp);
    destruct (PCA9557.debug self); simpl; eexists; reflexivity.
Qed.

Lemma get_pin_value_rejects (pin : Z) (w : World T) :
  pin < 0 \/ 7 < pin ->
  exists out,
    PCA9557.get_pin_value self pin w =
    (inr (-1), mkWorld (bus w) (calls w) out).
Proof.
  intros Hp. destruct w as [s l out0]. unfold PCA9557.get_pin_value.
  rewrite (pin_in_range_false pin Hp).
  destruct (PCA9557.debug self); simpl; eexists; reflexivity.
Qed.

Lemma get_pin_value_run (pin : Z) (w : World T) :
  0 <= pin <= 7 ->
  exists out,
    PCA9557.get_pin_value self pin w =
    (inr (Z.b2z (Z.testbit (current a PCA9557_INPUT_REG w) pin)),
     mkWorld (snd (readfrom_mem a PCA9557_INPUT_REG 1 (bus w)))
             (calls w ++ [ReadFromMem a PCA9557_INPUT_REG 1]) out).
Proof.
  intros Hp. unfold PCA9557.get_pin_value.
  rewrite (pin_in_range_true pin Hp). change (negb true) with false.
  cbv iota. unfold bind.
  destruct (read_reg_run self PCA9557_INPUT_REG w) as [out E]. rewrite E.
  exists out. unfold ret. rewrite truthy_mask by lia.
  fold a. fold (current a PCA9557_INPUT_REG w).
  destruct (Z.testbit _ pin); reflexivity.
Qed.

(** No setter ever raises, whatever the pin and the transport. *)
Lemma setter_returns X reg (pin arg : Z) (w : World T) :
  In (X, reg) setters -> exists ok w', X self pin arg w = (inr ok, w').
Proof.
  intros HX.
  destruct (Z_le_gt_dec 0 pin) as [H0 | H0];
    [ destruct (Z_le_gt_dec pin 7) as [H7 | H7] | ].
  - destruct (setter_run X reg pin arg w HX (conj H0 H7))
      as (b & out & _ & E).
    rewrite E. eexists; eexists; reflexivity.
  - destruct (setter_rejects X reg pin arg w HX) as [out E]; [ lia | ].
    rewrite E. eexists; eexists; reflexivity.
  - destruct (setter_rejects X reg pin arg w HX) as [out E]; [ lia | ].
    rewrite E. eexists; eexists; reflexivity.
Qed.

End Outcomes.

Section Construction.
Context {T : Type} {i2c : I2C T}.

Ltac step_read :=
  match goal with
  | |- context [PCA9557._read_reg ?s ?r ?w] =>
      let out := fresh "out" in
      let E := fresh "E" in
      destruct (read_reg_run s r w) as [out E]; rewrite E; clear E;
      cbv beta iota; cbn [bus calls console]
  end.

Ltac step_write b :=
  match goal with
  | |- context [PCA9557._write_reg ?s ?r ?v ?w] =>
      let out := fresh "out" in
      let E := fresh "E" in
      destruct (write_reg_byte_run s r b w) as [out E];
      change (byte_to_Z b) with v in E; rewrite E; clear E;
      cbv beta iota; cbn [bus calls console]
  end.

(** Construction always completes, and these are the transactions it
    issues. *)
Lemma init_run (addr : Z) (debug : bool) (w : World T) :
  exists w',
    PCA9557.__init__ addr debug w = (inr (PCA9557.new addr debug), w') /\
    calls w' =
    calls w ++ startup_sequence addr ++
    (if debug then verification_reads addr else []).
Proof.
  unfold PCA9557.__init__, try_except.
  destruct debug; unfold bind, when, print, ret;
    step_read; step_read; step_write Byte.x00; step_write Byte.xff.
  - step_read. step_read. eexists. split; [ reflexivity | ].
    cbn [calls PCA9557.addr]. rewrite <- !app_assoc. reflexivity.
  - eexists. split; [ reflexivity | ].
    cbn [calls PCA9557.addr]. rewrite <- !app_assoc. reflexivity.
Qed.

End Construction.

(** * Properties of the driver *)

(** C1 (the code departs from this claim): on a bus whose two start-up
    writes raise [OSError], construction does not fail.  [_write_reg]
    catches the error and returns [False], [__init__] drops that result,
    and the caller receives an expander object although the device still
    holds its old configuration. *)
Theorem C1_construction_survives_write_errors :
  let w := boot write_refusing_bus in
  fst (writeto_mem PCA9557_ADDR PCA9557_CONFIG_REG [Byte.x00] (bus w))
  = inl (OSError 19) /\
  fst (writeto_mem PCA9557_ADDR PCA9557_OUTPUT_REG [Byte.xff] (bus w))
  = inl (OSError 19) /\
  fst (PCA9557.__init__ PCA9557_ADDR false w)
  = inr (PCA9557.new PCA9557_ADDR false) /\
  Faulty.regs (bus (snd (PCA9557.__init__ PCA9557_ADDR false w)))
  = scenario_regs.
Proof.
  intros w. subst w. vm_compute. repeat split; reflexivity.
Qed.

(** C2 as stated fails: with [debug=True] construction issues six
    transactions, not the four of the start-up sequence. *)
Lemma C2_debug_adds_reads :
  ~ issued (boot scenario_regs)
      (snd (PCA9557.__init__ PCA9557_ADDR true (boot scenario_regs)))
      (startup_sequence PCA9557_ADDR).
Proof.
  unfold issued. vm_compute. intros E. discriminate E.
Qed.

(** C3 as stated fails when the read of the register raises: on the bus
    that refuses reads the config register holds 0xFF, yet
    [set_pin_mode(3, PIN_INPUT)] writes 0x08 back, which differs from 0xFF
    in bits other than bit 3. *)
Lemma C3_failed_read_clobbers_bits :
  ~ exists nv,
      written_back PCA9557_ADDR PCA9557_CONFIG_REG (boot read_refusing_bus)
        (snd (PCA9557.set_pin_mode expander 3 PIN_INPUT
                (boot read_refusing_bus))) nv /\
      forall i, i <> 3 ->
        Z.testbit nv i =
        Z.testbit
          (byte_to_Z (RegFile.get (Faulty.regs read_refusing_bus)
                        PCA9557_CONFIG_REG)) i.
Proof.
  intros (nv & (b & Hcalls & Hb) & Hbits).
  unfold issued in Hcalls. vm_compute in Hcalls.
  injection Hcalls as <-. subst nv.
  specialize (Hbits 0 ltac:(discriminate)).
  vm_compute in Hbits. discriminate Hbits.
Qed.

Section Properties.
Context {T : Type} {i2c : I2C T}.

(** C2 (amended): on every transport, construction issues the start-up
    sequence (read Config, read Output, write Config = 0x00, write
    Output = 0xFF, in this order) and nothing else when [debug] is off;
    when [debug] is on the same four transactions are followed by one
    more read of Config and one more read of Output. *)
Theorem C2_startup_transactions (addr : Z) (debug : bool) (w : World T) :
  issued w (snd (PCA9557.__init__ addr debug w))
    (if debug
     then startup_sequence addr ++ verification_reads addr
     else startup_sequence addr).
Proof.
  destruct (init_run addr debug w) as (w' & E & Hcalls).
  rewrite E. unfold issued. cbn [snd]. rewrite Hcalls.
  destruct debug; [ reflexivity | rewrite app_nil_r; reflexivity ].
Qed.

(** Each setter, called on a valid pin, writes back a value whose bits
    other than bit [pin] are those of the value its read step returned
    (which is 0 when the read failed). *)
Lemma setter_keeps_bits_of_value_read
  (self : PCA9557.t) (pin arg : Z) (w : World T) X reg :
  In (X, reg) setters -> 0 <= pin <= 7 ->
  exists nv,
    written_back (PCA9557.addr self) reg w (snd (X self pin arg w)) nv /\
    forall i, i <> pin ->
      Z.testbit nv i = Z.testbit (current (PCA9557.addr self) reg w) i.
Proof.
  intros HX Hp.
  exists (spec_bit_update (current (PCA9557.addr self) reg w) pin arg).
  split; [ apply setter_written_back; assumption | ].
  intros i Hi.
  destruct (Z.lt_ge_cases i 0) as [Hneg | Hpos].
  - rewrite !Z.testbit_neg_r by exact Hneg. reflexivity.
  - rewrite spec_bit_update_testbit by lia.
    destruct (Z.eqb_spec pin i) as [<- | _]; [ contradiction | reflexivity ].
Qed.

(** C3 (amended): for each of [set_pin_mode], [set_pin_value] and
    [set_pin_polarity] with its register, when the read of the register
    succeeds and answers with the register's value [V] (the byte [b]),
    whatever [V] is and whatever the second argument, a call on a valid
    pin [pin] writes back a value whose bits other than bit [pin] are
    those of [V]. *)
Theorem C3_other_bits_kept_when_read_succeeds
  (self : PCA9557.t) (pin arg : Z) (w : World T) X reg
  (b : byte) (rest : list byte) :
  In (X, reg) setters -> 0 <= pin <= 7 ->
  fst (readfrom_mem (PCA9557.addr self) reg 1 (bus w)) = inr (b :: rest) ->
  let V := byte_to_Z b in
  exists nv,
    written_back (PCA9557.addr self) reg w (snd (X self pin arg w)) nv /\
    forall i, i <> pin -> Z.testbit nv i = Z.testbit V i.
Proof.
  intros HX Hp Hread V.
  destruct (setter_keeps_bits_of_value_read self pin arg w X reg HX Hp)
    as (nv & Hw & Hbits).
  exists nv. split; [ exact Hw | ].
  intros i Hi. rewrite (Hbits i Hi).
  unfold current. rewrite Hread. reflexivity.
Qed.

(** C4: the three setters follow one rule.  On a valid pin, with [c] the
    current value of the setter's register, argument 0 (output, low,
    non-inverted) writes [c & ~(1 << pin)] and argument 1 (input, high,
    inverted) writes [c | (1 << pin)]. *)
Theorem C4_uniform_bit_update
  (self : PCA9557.t) (pin : Z) (w : World T) X reg :
  In (X, reg) setters -> 0 <= pin <= 7 ->
  let a := PCA9557.addr self in
  let c := current a reg w in
  (PIN_OUTPUT = 0 /\ PIN_LOW = 0 /\ PIN_NON_INVERTED = 0) /\
  (PIN_INPUT = 1 /\ PIN_HIGH = 1 /\ PIN_INVERTED = 1) /\
  written_back a reg w (snd (X self pin 0 w))
    (Z.land c (Z.lnot (Z.shiftl 1 pin))) /\
  written_back a reg w (snd (X self pin 1 w))
    (Z.lor c (Z.shiftl 1 pin)).
Proof.
  intros HX Hp a c.
  split; [ repeat split | ]. split; [ repeat split | ].
  split.
  - exact (setter_written_back self X reg pin 0 w HX Hp).
  - exact (setter_written_back self X reg pin 1 w HX Hp).
Qed.

(** C5: with a pin below 0 or above 7, every setter returns [False] and
    [get_pin_value] returns -1; none of them issues a bus transaction and
    the state of the bus and of the device is unchanged. *)
Theorem C5_invalid_pin_rejected
  (self : PCA9557.t) (pin arg : Z) (w : World T) :
  pin < 0 \/ 7 < pin ->
  (forall X reg, In (X, reg) setters ->
     fst (X self pin arg w) = inr false /\
     issued w (snd (X self pin arg w)) [] /\
     bus (snd (X self pin arg w)) = bus w) /\
  (fst (PCA9557.get_pin_value self pin w) = inr (-1) /\
   issued w (snd (PCA9557.get_pin_value self pin w)) [] /\
   bus (snd (PCA9557.get_pin_value self pin w)) = bus w).
Proof.
  intros Hp. split.
  - intros X reg HX.
    destruct (setter_rejects self X reg pin arg w HX Hp) as [out E].
    rewrite E. unfold issued. cbn [fst snd bus calls].
    rewrite app_nil_r. repeat split.
  - destruct (get_pin_value_rejects self pin w Hp) as [out E].
    rewrite E. unfold issued. cbn [fst snd bus calls].
    rewrite app_nil_r. repeat split.
Qed.

End Properties.

(** What the simulated device holds in a register right after it was
    written. *)
Lemma regfile_get_set (rf : RegFile.t) (reg : Z) (b : byte) :
  reg = PCA9557_OUTPUT_REG \/ reg = PCA9557_POLARITY_REG \/
  reg = PCA9557_CONFIG_REG ->
  RegFile.get (RegFile.set rf reg b) reg = b.
Proof.
  intros [-> | [-> | ->]]; reflexivity.
Qed.

Lemma setters_registers {T} `{I2C T} X reg :
  In (X, reg) setters ->
  reg = PCA9557_OUTPUT_REG \/ reg = PCA9557_POLARITY_REG \/
  reg = PCA9557_CONFIG_REG.
Proof.
  intros [E | [E | [E | []]]]; injection E as _ <-; auto.
Qed.

(** C6: on the simulated register file, whose reads and writes never
    fail, for every valid pin, every setter and every [b] in {0, 1}: the
    setter succeeds, and reading its register back afterwards yields a
    value whose bit [pin] is [b]. *)
Theorem C6_set_then_read_back
  (self : PCA9557.t) (pin b : Z) (w : World RegFile.t) X reg :
  In (X, reg) setters -> 0 <= pin <= 7 -> b = 0 \/ b = 1 ->
  exists w' v,
    X self pin b w = (inr true, w') /\
    fst (PCA9557._read_reg self reg w') = inr v /\
    Z.b2z (Z.testbit v pin) = b.
Proof.
  intros HX Hp Hb.
  destruct (setter_run self X reg pin b w HX Hp) as (nb & out & Hnb & E).
  cbn [readfrom_mem writeto_mem RegFile.i2c fst snd succeeded] in E.
  cbn [fold_left] in E.
  eexists. exists (byte_to_Z nb). split; [ exact E | ].
  match goal with
  | |- fst (PCA9557._read_reg ?s ?r ?w1) = _ /\ _ =>
      destruct (read_reg_run s r w1) as [out' E']; rewrite E'; clear E'
  end.
  cbn [readfrom_mem RegFile.i2c fst snd bus].
  change (Z.to_nat 1) with 1%nat. cbn [repeat read_value].
  rewrite (regfile_get_set _ reg nb (setters_registers X reg HX)).
  split; [ reflexivity | ].
  rewrite Hnb, spec_bit_update_testbit, Z.eqb_refl by lia.
  destruct Hb as [-> | ->]; reflexivity.
Qed.

Section Reading.
Context {T : Type} {i2c : I2C T}.

(** C7: for a valid pin, [get_pin_value] issues one read of the input
    register and returns bit [pin] of the value read, as 0 or 1; it never
    returns -1 for a valid pin, and when the bus read fails the value read
    counts as 0, so the result is 0. *)
Theorem C7_get_pin_value
  (self : PCA9557.t) (pin : Z) (w : World T) :
  0 <= pin <= 7 ->
  let a := PCA9557.addr self in
  let res := PCA9557.get_pin_value self pin w in
  issued w (snd res) [ReadFromMem a PCA9557_INPUT_REG 1] /\
  fst res = inr (Z.b2z (Z.testbit (current a PCA9557_INPUT_REG w) pin)) /\
  (fst res = inr 0 \/ fst res = inr 1) /\
  fst res <> inr (-1) /\
  (succeeded (fst (readfrom_mem a PCA9557_INPUT_REG 1 (bus w))) = false ->
   fst res = inr 0).
Proof.
  intros Hp a res. subst res.
  destruct (get_pin_value_run self pin w Hp) as [out E]. rewrite E.
  cbn [fst snd]. fold a.
  split; [ reflexivity | ]. split; [ reflexivity | ].
  split; [ | split ].
  - destruct (Z.testbit _ pin); [ right | left ]; reflexivity.
  - destruct (Z.testbit _ pin); discriminate.
  - unfold current.
    destruct (fst (readfrom_mem a PCA9557_INPUT_REG 1 (bus w)))
      as [e | l]; [ | discriminate ].
    intros _. cbn [read_value]. rewrite Z.bits_0. reflexivity.
Qed.

(** C8: building a [PCA9557Pin] runs [set_pin_mode(pin_num, PIN_OUTPUT)]
    on the expander first and then returns the adapter whatever that call
    returned ([ok] may be [False]); nothing is raised. *)
Theorem C8_adapter_construction
  (pca : PCA9557.t) (pin_num : Z) (debug : bool) (w : World T) :
  exists ok w1,
    PCA9557.set_pin_mode pca pin_num PIN_OUTPUT w = (inr ok, w1) /\
    PCA9557Pin.__init__ pca pin_num debug w =
    (inr (PCA9557Pin.new pca pin_num debug),
     mkWorld (bus w1) (calls w1)
             (console w1 ++ (if debug then [PinCreated pin_num] else []))).
Proof.
  destruct (setter_returns pca PCA9557.set_pin_mode PCA9557_CONFIG_REG
              pin_num PIN_OUTPUT w) as (ok & w1 & E).
  { left. reflexivity. }
  exists ok, w1. split; [ exact E | ].
  unfold PCA9557Pin.__init__, bind. rewrite E.
  destruct w1 as [s l out]; destruct debug; cbn; rewrite ?app_nil_r;
    reflexivity.
Qed.

(** C9: on a valid pin, each setter treats every second argument other
    than 0 as it treats 1: the call behaves exactly as with 1, and writes
    the current register value with bit [pin] set. *)
Theorem C9_nonzero_argument_sets_bit
  (self : PCA9557.t) (pin m : Z) (w : World T) X reg :
  In (X, reg) setters -> 0 <= pin <= 7 -> m <> 0 ->
  let a := PCA9557.addr self in
  X self pin m w = X self pin 1 w /\
  written_back a reg w (snd (X self pin m w))
    (Z.lor (current a reg w) (Z.shiftl 1 pin)).
Proof.
  intros HX Hp Hm a.
  assert (Hm0 : (m =? 0) = false) by (apply Z.eqb_neq; exact Hm).
  split.
  - destruct HX as [E | [E | [E | []]]]; injection E as <- <-.
    + unfold PCA9557.set_pin_mode, PIN_OUTPUT. rewrite Hm0. reflexivity.
    + unfold PCA9557.set_pin_value, PIN_LOW, truthy. rewrite Hm0.
      reflexivity.
    + unfold PCA9557.set_pin_polarity, PIN_NON_INVERTED. rewrite Hm0.
      reflexivity.
  - pose proof (setter_written_back self X reg pin m w HX Hp) as Hw.
    unfold spec_bit_update in Hw. rewrite Hm0 in Hw. exact Hw.
Qed.

(** C10: [PCA9557Pin.value] reads only when [val] is [None]: it then
    returns the integer [get_pin_value] returns, after one read of the
    input register.  For every other [val], 0 included, it writes: it
    returns the boolean of [set_pin_value] called with [PIN_LOW] for 0
    and [PIN_HIGH] for any other value, which clears, respectively sets,
    the pin's bit of the output register. *)
Theorem C10_value_dispatch (self : PCA9557Pin.t) (w : World T) :
  let pca := PCA9557Pin.pca9557 self in
  let pin := PCA9557Pin.pin_num self in
  let a := PCA9557.addr pca in
  let c := current a PCA9557_OUTPUT_REG w in
  0 <= pin <= 7 ->
  (exists z w',
     PCA9557.get_pin_value pca pin w = (inr z, w') /\
     PCA9557Pin.value self None w = (inr (PyInt z), w') /\
     issued w w' [ReadFromMem a PCA9557_INPUT_REG 1]) /\
  (forall v, exists ok w',
     PCA9557.set_pin_value pca pin (if v =? 0 then PIN_LOW else PIN_HIGH) w
     = (inr ok, w') /\
     PCA9557Pin.value self (Some v) w = (inr (PyBool ok), w') /\
     written_back a PCA9557_OUTPUT_REG w w'
       (if v =? 0
        then Z.land c (Z.lnot (Z.shiftl 1 pin))
        else Z.lor c (Z.shiftl 1 pin))).
Proof.
  intros pca pin a c Hp. split.
  - destruct (get_pin_value_run pca pin w Hp) as [out E].
    eexists. eexists. split; [ exact E | ].
    unfold PCA9557Pin.value, bind. fold pca pin. rewrite E.
    split; reflexivity.
  - intros v.
    assert (HX : In (PCA9557.set_pin_value, PCA9557_OUTPUT_REG)
                    (@setters T i2c)) by (right; left; reflexivity).
    pose proof (setter_written_back pca _ _ pin
                  (if v =? 0 then PIN_LOW else PIN_HIGH) w HX Hp) as Hw.
    destruct (setter_returns pca _ _ pin
                (if v =? 0 then PIN_LOW else PIN_HIGH) w HX)
      as (ok & w' & E).
    exists ok, w'. rewrite E in Hw. cbn [snd] in Hw.
    split; [ exact E | ]. split.
    + unfold PCA9557Pin.value, bind, truthy. fold pca pin.
      destruct (v =? 0); cbn [negb]; rewrite E; reflexivity.
    + fold a c in Hw. destruct (v =? 0); exact Hw.
Qed.

End Reading.

(** * The properties at concrete inputs *)

(** The scenario of the specification on the simulated device: after
    construction config = 0x00 and output = 0xFF; after
    [set_pin_mode(3, PIN_INPUT)] config = 0x08; once pin 3 is driven high
    from outside, [get_pin_value(3)] is 1. *)
Example scenario_run :
  let w1 := snd (PCA9557.__init__ PCA9557_ADDR false (boot scenario_regs)) in
  let w2 := snd (PCA9557.set_pin_mode expander 3 PIN_INPUT w1) in
  let w3 := mkWorld (RegFile.drive_input (bus w2) Byte.x08)
                    (calls w2) (console w2) in
  bus w1 = RegFile.mk Byte.x00 Byte.xff Byte.x00 Byte.x00 /\
  bus w2 = RegFile.mk Byte.x00 Byte.xff Byte.x00 Byte.x08 /\
  fst (PCA9557.get_pin_value expander 3 w3) = inr 1.
Proof.
  vm_compute. repeat split; reflexivity.
Qed.

(** On the bus that refuses writes, [set_pin_mode] reports [False] and the
    adapter is built all the same. *)
Example adapter_on_write_refusing_bus :
  fst (PCA9557.set_pin_mode expander 3 PIN_OUTPUT (boot write_refusing_bus))
  = inr false /\
  fst (PCA9557Pin.__init__ expander 3 false (boot write_refusing_bus))
  = inr (PCA9557Pin.new expander 3 false).
Proof.
  vm_compute. split; reflexivity.
Qed.

(** C3 at [set_pin_mode(3, PIN_OUTPUT)] on the scenario's register file,
    whose config register holds 0xFF. *)
Lemma C3_witness :
  (In (PCA9557.set_pin_mode, PCA9557_CONFIG_REG) (@setters RegFile.t _) /\
   0 <= 3 <= 7 /\
   fst (readfrom_mem PCA9557_ADDR PCA9557_CONFIG_REG 1 scenario_regs)
   = inr [RegFile.config scenario_regs]) /\
  exists nv,
    written_back PCA9557_ADDR PCA9557_CONFIG_REG (boot scenario_regs)
      (snd (PCA9557.set_pin_mode expander 3 PIN_OUTPUT (boot scenario_regs)))
      nv /\
    forall i, i <> 3 ->
      Z.testbit nv i =
      Z.testbit (byte_to_Z (RegFile.config scenario_regs)) i.
Proof.
  assert (HX : In (PCA9557.set_pin_mode, PCA9557_CONFIG_REG)
                  (@setters RegFile.t _)) by (left; reflexivity).
  assert (Hp : 0 <= 3 <= 7) by lia.
  assert (Hread : fst (readfrom_mem PCA9557_ADDR PCA9557_CONFIG_REG 1
                         scenario_regs)
                  = inr [RegFile.config scenario_regs]) by reflexivity.
  split; [ exact (conj HX (conj Hp Hread)) | ].
  exact (C3_other_bits_kept_when_read_succeeds expander 3 PIN_OUTPUT
           (boot scenario_regs) _ _ _ _ HX Hp Hread).
Defined.

(** C4 at [set_pin_value(5, _)] on the scenario's register file. *)
Lemma C4_witness :
  (In (PCA9557.set_pin_value, PCA9557_OUTPUT_REG) (@setters RegFile.t _) /\
   0 <= 5 <= 7) /\
  written_back PCA9557_ADDR PCA9557_OUTPUT_REG (boot scenario_regs)
    (snd (PCA9557.set_pin_value expander 5 0 (boot scenario_regs)))
    (Z.land (current PCA9557_ADDR PCA9557_OUTPUT_REG (boot scenario_regs))
            (Z.lnot (Z.shiftl 1 5))) /\
  written_back PCA9557_ADDR PCA9557_OUTPUT_REG (boot scenario_regs)
    (snd (PCA9557.set_pin_value expander 5 1 (boot scenario_regs)))
    (Z.lor (current PCA9557_ADDR PCA9557_OUTPUT_REG (boot scenario_regs))
           (Z.shiftl 1 5)).
Proof.
  assert (HX : In (PCA9557.set_pin_value, PCA9557_OUTPUT_REG)
                  (@setters RegFile.t _)) by (right; left; reflexivity).
  assert (Hp : 0 <= 5 <= 7) by lia.
  split; [ split; assumption | ].
  exact (proj2 (proj2 (C4_uniform_bit_update expander 5 (boot scenario_regs)
                         _ _ HX Hp))).
Defined.

(** C5 at [get_pin_value(8)]. *)
Lemma C5_witness :
  (8 < 0 \/ 7 < 8) /\
  fst (PCA9557.get_pin_value expander 8 (boot scenario_regs)) = inr (-1) /\
  issued (boot scenario_regs)
    (snd (PCA9557.get_pin_value expander 8 (boot scenario_regs))) [] /\
  bus (snd (PCA9557.get_pin_value expander 8 (boot scenario_regs)))
  = scenario_regs.
Proof.
  assert (Hp : 8 < 0 \/ 7 < 8) by (right; lia).
  split; [ exact Hp | ].
  exact (proj2 (C5_invalid_pin_rejected expander 8 PIN_HIGH
                  (boot scenario_regs) Hp)).
Defined.

(** C6 at [set_pin_polarity(7, PIN_INVERTED)]. *)
Lemma C6_witness :
  (In (PCA9557.set_pin_polarity, PCA9557_POLARITY_REG) (@setters RegFile.t _) /\
   0 <= 7 <= 7 /\ (1 = 0 \/ 1 = 1)) /\
  exists w' v,
    PCA9557.set_pin_polarity expander 7 1 (boot scenario_regs)
    = (inr true, w') /\
    fst (PCA9557._read_reg expander PCA9557_POLARITY_REG w') = inr v /\
    Z.b2z (Z.testbit v 7) = 1.
Proof.
  assert (HX : In (PCA9557.set_pin_polarity, PCA9557_POLARITY_REG)
                  (@setters RegFile.t _))
    by (right; right; left; reflexivity).
  assert (Hp : 0 <= 7 <= 7) by lia.
  assert (Hb : 1 = 0 \/ 1 = 1) by (right; reflexivity).
  split; [ exact (conj HX (conj Hp Hb)) | ].
  exact (C6_set_then_read_back expander 7 1 (boot scenario_regs)
           _ _ HX Hp Hb).
Defined.

(** C7 at pin 3 on a bus whose reads raise: the result is 0. *)
Lemma C7_witness :
  0 <= 3 <= 7 /\
  succeeded (fst (readfrom_mem PCA9557_ADDR PCA9557_INPUT_REG 1
                    (Faulty.mk scenario_regs true false))) = false /\
  fst (PCA9557.get_pin_value expander 3
         (boot (Faulty.mk scenario_regs true false))) = inr 0.
Proof.
  assert (Hp : 0 <= 3 <= 7) by lia.
  split; [ exact Hp | ]. split; [ reflexivity | ].
  exact (proj2 (proj2 (proj2 (proj2
           (C7_get_pin_value expander 3
              (boot (Faulty.mk scenario_regs true false)) Hp))))
           eq_refl).
Defined.

(** C9 at [set_pin_mode(2, 2)]. *)
Lemma C9_witness :
  (In (PCA9557.set_pin_mode, PCA9557_CONFIG_REG) (@setters RegFile.t _) /\
   0 <= 2 <= 7 /\ 2 <> 0) /\
  PCA9557.set_pin_mode expander 2 2 (boot scenario_regs)
  = PCA9557.set_pin_mode expander 2 1 (boot scenario_regs) /\
  written_back PCA9557_ADDR PCA9557_CONFIG_REG (boot scenario_regs)
    (snd (PCA9557.set_pin_mode expander 2 2 (boot scenario_regs)))
    (Z.lor (current PCA9557_ADDR PCA9557_CONFIG_REG (boot scenario_regs))
           (Z.shiftl 1 2)).
Proof.
  assert (HX : In (PCA9557.set_pin_mode, PCA9557_CONFIG_REG)
                  (@setters RegFile.t _)) by (left; reflexivity).
  assert (Hp : 0 <= 2 <= 7) by lia.
  assert (Hm : 2 <> 0) by discriminate.
  split; [ exact (conj HX (conj Hp Hm)) | ].
  exact (C9_nonzero_argument_sets_bit expander 2 2 (boot scenario_regs)
           _ _ HX Hp Hm).
Defined.

(** C10 at [value(0)] on the adapter of pin 4. *)
Lemma C10_witness :
  0 <= 4 <= 7 /\
  exists ok w',
    PCA9557.set_pin_value expander 4 PIN_LOW (boot scenario_regs)
    = (inr ok, w') /\
    PCA9557Pin.value (PCA9557Pin.new expander 4 false) (Some 0)
      (boot scenario_regs) = (inr (PyBool ok), w') /\
    written_back PCA9557_ADDR PCA9557_OUTPUT_REG (boot scenario_regs) w'
      (Z.land (current PCA9557_ADDR PCA9557_OUTPUT_REG (boot scenario_regs))
              (Z.lnot (Z.shiftl 1 4))).
Proof.
  assert (Hp : 0 <= 4 <= 7) by lia.
  split; [ exact Hp | ].
  exact (proj2 (C10_value_dispatch (PCA9557Pin.new expander 4 false)
                  (boot scenario_regs) Hp) 0).
Defined.

(** * Further properties of the driver *)

Lemma byte_to_Z_inj (b1 b2 : byte) : byte_to_Z b1 = byte_to_Z b2 -> b1 = b2.
Proof.
  unfold byte_to_Z. intros E. apply N2Z.inj in E.
  pose proof (Byte.of_to_N b1) as E1. rewrite E, Byte.of_to_N in E1.
  injection E1 as <-. reflexivity.
Qed.

Section Primitives.
Context {T : Type} {i2c : I2C T}.

(** [_read_reg] never raises, whatever the transport does.  It issues
    exactly one one-byte read of the register and returns a value between
    0 and 255: the first byte of the answer, or 0 when the transport
    raised or answered with no byte at all. *)
Theorem read_reg_masks_failures (self : PCA9557.t) (reg : Z) (w : World T) :
  let a := PCA9557.addr self in
  let r := readfrom_mem a reg 1 (bus w) in
  exists v w',
    PCA9557._read_reg self reg w = (inr v, w') /\
    0 <= v < 256 /\
    v = match fst r with inr (b :: _) => byte_to_Z b | _ => 0 end /\
    issued w w' [ReadFromMem a reg 1] /\
    bus w' = snd r.
Proof.
  intros a r. destruct (read_reg_run self reg w) as [out E].
  eexists. eexists. split; [ exact E | ].
  split; [ apply read_value_range | ].
  repeat split.
Qed.

(** [_write_reg] with a value that fits a byte never raises: it issues
    exactly one write of that single byte and returns [True] when the
    transport accepted it, [False] when the transport raised. *)
Theorem write_reg_reports_transport (self : PCA9557.t) (reg v : Z)
  (w : World T) :
  0 <= v < 256 ->
  let a := PCA9557.addr self in
  exists b w',
    byte_to_Z b = v /\
    PCA9557._write_reg self reg v w =
    (inr (succeeded (fst (writeto_mem a reg [b] (bus w)))), w') /\
    issued w w' [WriteToMem a reg [b]] /\
    bus w' = snd (writeto_mem a reg [b] (bus w)).
Proof.
  intros Hv a.
  destruct (write_reg_run self reg v w Hv) as (b & out & Hb & E).
  exists b. eexists. split; [ exact Hb | ]. split; [ exact E | ].
  split; reflexivity.
Qed.

(** [_write_reg] with a value below 0 or above 255 returns [False] without
    touching the bus: [bytes([value])] raises inside the [try]. *)
Theorem write_reg_rejects_non_bytes (self : PCA9557.t) (reg v : Z)
  (w : World T) :
  v < 0 \/ 256 <= v ->
  fst (PCA9557._write_reg self reg v w) = inr false /\
  issued w (snd (PCA9557._write_reg self reg v w)) [] /\
  bus (snd (PCA9557._write_reg self reg v w)) = bus w.
Proof.
  intros Hv. destruct (write_reg_out_of_range self reg v w Hv) as [out E].
  rewrite E. unfold issued. cbn [fst snd bus calls]. rewrite app_nil_r.
  repeat split.
Qed.

(** Construction completes on every transport: the exceptions of the bus
    are all caught inside [_read_reg] and [_write_reg], so [__init__]
    returns the object with the address and debug flag it was given. *)
Theorem init_always_returns (addr : Z) (debug : bool) (w : World T) :
  fst (PCA9557.__init__ addr debug w) = inr (PCA9557.new addr debug).
Proof.
  destruct (init_run addr debug w) as (w' & E & _). rewrite E. reflexivity.
Qed.

End Primitives.

(** On the simulated device construction leaves config = 0x00 and
    output = 0xFF whatever the registers held before, and does not change
    the input and polarity registers. *)
Theorem init_forces_known_state (addr : Z) (debug : bool)
  (w : World RegFile.t) :
  bus (snd (PCA9557.__init__ addr debug w)) =
  RegFile.mk (RegFile.input (bus w)) Byte.xff
             (RegFile.polarity (bus w)) Byte.x00.
Proof.
  destruct w as [[i o p c] l out]. destruct debug; reflexivity.
Qed.

(** [write_reg_reports_transport] at a write of 0x2A to the output
    register. *)
Lemma write_reg_reports_transport_witness :
  0 <= 42 < 256 /\
  exists b w',
    byte_to_Z b = 42 /\
    PCA9557._write_reg expander PCA9557_OUTPUT_REG 42 (boot scenario_regs) =
    (inr (succeeded (fst (writeto_mem PCA9557_ADDR PCA9557_OUTPUT_REG [b]
                            scenario_regs))), w') /\
    issued (boot scenario_regs) w'
      [WriteToMem PCA9557_ADDR PCA9557_OUTPUT_REG [b]] /\
    bus w' = snd (writeto_mem PCA9557_ADDR PCA9557_OUTPUT_REG [b]
                    scenario_regs).
Proof.
  assert (Hv : 0 <= 42 < 256) by lia.
  split; [ exact Hv | ].
  exact (write_reg_reports_transport expander PCA9557_OUTPUT_REG 42
           (boot scenario_regs) Hv).
Defined.

(** [write_reg_rejects_non_bytes] at the value 256. *)
Lemma write_reg_rejects_non_bytes_witness :
  (256 < 0 \/ 256 <= 256) /\
  fst (PCA9557._write_reg expander PCA9557_OUTPUT_REG 256
         (boot scenario_regs)) = inr false /\
  issued (boot scenario_regs)
    (snd (PCA9557._write_reg expander PCA9557_OUTPUT_REG 256
            (boot scenario_regs))) [] /\
  bus (snd (PCA9557._write_reg expander PCA9557_OUTPUT_REG 256
              (boot scenario_regs))) = scenario_regs.
Proof.
  assert (Hv : 256 < 0 \/ 256 <= 256) by (right; lia).
  split; [ exact Hv | ].
  exact (write_reg_rejects_non_bytes expander PCA9557_OUTPUT_REG 256
           (boot scenario_regs) Hv).
Defined.

(** ** The setters on the simulated device *)

Lemma byte_to_of_Z (v : Z) : 0 <= v < 256 -> byte_to_Z (byte_of_Z v) = v.
Proof.
  intros Hv. unfold byte_of_Z, byte_to_Z.
  destruct (Byte.of_N (Z.to_N v)) as [b | ] eqn:E.
  - apply Byte.to_of_N in E. rewrite E. apply Z2N.id. lia.
  - apply Byte.of_N_None_iff in E. lia.
Qed.

Lemma byte_of_to_Z (b : byte) : byte_of_Z (byte_to_Z b) = b.
Proof.
  apply byte_to_Z_inj. apply byte_to_of_Z. apply byte_to_Z_range.
Qed.

Lemma spec_bit_update_twice (c p x y : Z) :
  0 <= p ->
  spec_bit_update (spec_bit_update c p x) p y = spec_bit_update c p y.
Proof.
  intros Hp. apply Z.bits_inj'. intros i Hi.
  rewrite !spec_bit_update_testbit by assumption.
  destruct (p =? i); reflexivity.
Qed.

Lemma spec_bit_update_comm (c p x q y : Z) :
  0 <= p -> 0 <= q -> p <> q ->
  spec_bit_update (spec_bit_update c p x) q y =
  spec_bit_update (spec_bit_update c q y) p x.
Proof.
  intros Hp Hq Hpq. apply Z.bits_inj'. intros i Hi.
  rewrite !spec_bit_update_testbit by assumption.
  destruct (Z.eqb_spec p i) as [Ep | _]; destruct (Z.eqb_spec q i) as [Eq | _];
    try reflexivity.
  congruence.
Qed.

Lemma regfile_get_set_other (rf : RegFile.t) (reg reg' : Z) (b : byte) :
  reg' <> reg -> RegFile.get (RegFile.set rf reg b) reg' = RegFile.get rf reg'.
Proof.
  intros Hne. unfold RegFile.set.
  destruct (Z.eqb_spec reg PCA9557_OUTPUT_REG) as [-> | _];
    [ | destruct (Z.eqb_spec reg PCA9557_POLARITY_REG) as [-> | _];
        [ | destruct (Z.eqb_spec reg PCA9557_CONFIG_REG) as [-> | _];
            [ | reflexivity ] ] ];
    unfold RegFile.get;
    repeat match goal with
           | |- context [?x =? ?y] =>
               destruct (Z.eqb_spec x y); try congruence
           end;
    reflexivity.
Qed.

(** A setter called with a valid pin on the simulated device succeeds and
    leaves the device as [regfile_update] says. *)
Lemma setter_on_regfile (self : PCA9557.t) X reg (pin arg : Z)
  (w : World RegFile.t) :
  In (X, reg) setters -> 0 <= pin <= 7 ->
  exists w',
    X self pin arg w = (inr true, w') /\
    bus w' = regfile_update (bus w) reg pin arg.
Proof.
  intros HX Hp.
  destruct (setter_run self X reg pin arg w HX Hp) as (nb & out & Hnb & E).
  cbn [readfrom_mem writeto_mem RegFile.i2c fst snd succeeded] in E, Hnb.
  cbn [fold_left] in E.
  change (Z.to_nat 1) with 1%nat in Hnb. cbn [repeat read_value] in Hnb.
  eexists. split; [ exact E | ].
  cbn [bus]. unfold regfile_update. rewrite <- Hnb, byte_of_to_Z.
  reflexivity.
Qed.

Lemma regfile_update_get (rf : RegFile.t) X reg (pin arg : Z) :
  In (X, reg) (@setters RegFile.t _) -> 0 <= pin <= 7 ->
  byte_to_Z (RegFile.get (regfile_update rf reg pin arg) reg) =
  spec_bit_update (byte_to_Z (RegFile.get rf reg)) pin arg.
Proof.
  intros HX Hp. unfold regfile_update.
  rewrite (regfile_get_set _ reg _ (setters_registers X reg HX)).
  apply byte_to_of_Z. apply spec_bit_update_range; [ | exact Hp ].
  apply byte_to_Z_range.
Qed.

Lemma regfile_set_set (rf : RegFile.t) (reg : Z) (b1 b2 : byte) :
  RegFile.set (RegFile.set rf reg b1) reg b2 = RegFile.set rf reg b2.
Proof.
  unfold RegFile.set.
  destruct (reg =? PCA9557_OUTPUT_REG); [ reflexivity | ].
  destruct (reg =? PCA9557_POLARITY_REG); [ reflexivity | ].
  destruct (reg =? PCA9557_CONFIG_REG); reflexivity.
Qed.

(** On the simulated device, a setter called with a valid pin succeeds,
    leaves every other register as it was, leaves every other bit of its
    own register as it was, and makes bit [pin] 0 for argument 0 and 1
    for any other argument. *)
Theorem setter_changes_one_bit (self : PCA9557.t) X reg (pin arg : Z)
  (w : World RegFile.t) :
  In (X, reg) setters -> 0 <= pin <= 7 ->
  let rf := bus w in
  let rf' := bus (snd (X self pin arg w)) in
  fst (X self pin arg w) = inr true /\
  (forall reg', reg' <> reg -> RegFile.get rf' reg' = RegFile.get rf reg') /\
  (forall i, i <> pin ->
     Z.testbit (byte_to_Z (RegFile.get rf' reg)) i =
     Z.testbit (byte_to_Z (RegFile.get rf reg)) i) /\
  Z.testbit (byte_to_Z (RegFile.get rf' reg)) pin = negb (arg =? 0).
Proof.
  intros HX Hp rf rf'. subst rf rf'.
  destruct (setter_on_regfile self X reg pin arg w HX Hp) as (w' & E & Hbus).
  rewrite E. cbn [fst snd]. rewrite Hbus.
  split; [ reflexivity | ]. split; [ | split ].
  - intros reg' Hne. unfold regfile_update.
    apply regfile_get_set_other. exact Hne.
  - intros i Hi. rewrite (regfile_update_get _ X) by assumption.
    destruct (Z.lt_ge_cases i 0) as [Hneg | Hpos].
    + rewrite !Z.testbit_neg_r by exact Hneg. reflexivity.
    + rewrite spec_bit_update_testbit by lia.
      destruct (Z.eqb_spec pin i) as [<- | _];
        [ contradiction | reflexivity ].
  - rewrite (regfile_update_get _ X reg pin arg HX Hp).
    rewrite spec_bit_update_testbit, Z.eqb_refl by lia. reflexivity.
Qed.

(** On the simulated device, calling a setter twice on the same valid pin
    leaves the device as the second call alone would: the last value wins,
    and repeating a call changes nothing. *)
Theorem setter_last_write_wins (self : PCA9557.t) X reg (pin x y : Z)
  (w : World RegFile.t) :
  In (X, reg) setters -> 0 <= pin <= 7 ->
  bus (snd (bind (X self pin x) (fun _ => X self pin y) w)) =
  bus (snd (X self pin y w)).
Proof.
  intros HX Hp.
  destruct (setter_on_regfile self X reg pin x w HX Hp) as (w1 & E1 & H1).
  destruct (setter_on_regfile self X reg pin y w1 HX Hp) as (w2 & E2 & H2).
  destruct (setter_on_regfile self X reg pin y w HX Hp) as (w3 & E3 & H3).
  unfold bind. rewrite E1, E2, E3. cbn [snd]. rewrite H2, H3, H1.
  unfold regfile_update at 1.
  rewrite (regfile_update_get _ X) by assumption.
  rewrite spec_bit_update_twice by lia.
  unfold regfile_update. apply regfile_set_set.
Qed.

Lemma regfile_update_comm (rf : RegFile.t) X1 r1 (p1 a1 : Z) X2 r2
  (p2 a2 : Z) :
  In (X1, r1) (@setters RegFile.t _) -> In (X2, r2) (@setters RegFile.t _) ->
  0 <= p1 <= 7 -> 0 <= p2 <= 7 -> r1 <> r2 \/ p1 <> p2 ->
  regfile_update (regfile_update rf r1 p1 a1) r2 p2 a2 =
  regfile_update (regfile_update rf r2 p2 a2) r1 p1 a1.
Proof.
  intros H1 H2 Hp1 Hp2 Hne.
  destruct (Z.eq_dec r1 r2) as [<- | Hr].
  - assert (Hp : p1 <> p2) by (destruct Hne; congruence).
    unfold regfile_update at 1 3.
    rewrite (regfile_update_get rf X1 r1 p1 a1 H1 Hp1).
    rewrite (regfile_update_get rf X1 r1 p2 a2 H1 Hp2).
    unfold regfile_update. rewrite !regfile_set_set.
    rewrite (spec_bit_update_comm _ p1 a1 p2 a2) by lia.
    reflexivity.
  - pose proof (setters_registers X1 r1 H1) as R1.
    pose proof (setters_registers X2 r2 H2) as R2.
    destruct rf as [i o p c].
    destruct R1 as [-> | [-> | ->]]; destruct R2 as [-> | [-> | ->]];
      solve [ contradiction | reflexivity ].
Qed.

(** On the simulated device, two setter calls that work on different
    registers, or on different pins of one register, can be made in either
    order: the device ends in the same state. *)
Theorem setters_commute (self : PCA9557.t) X1 r1 (p1 a1 : Z) X2 r2
  (p2 a2 : Z) (w : World RegFile.t) :
  In (X1, r1) setters -> In (X2, r2) setters ->
  0 <= p1 <= 7 -> 0 <= p2 <= 7 -> r1 <> r2 \/ p1 <> p2 ->
  bus (snd (bind (X1 self p1 a1) (fun _ => X2 self p2 a2) w)) =
  bus (snd (bind (X2 self p2 a2) (fun _ => X1 self p1 a1) w)).
Proof.
  intros H1 H2 Hp1 Hp2 Hne.
  destruct (setter_on_regfile self X1 r1 p1 a1 w H1 Hp1) as (u1 & E1 & B1).
  destruct (setter_on_regfile self X2 r2 p2 a2 u1 H2 Hp2) as (u2 & E2 & B2).
  destruct (setter_on_regfile self X2 r2 p2 a2 w H2 Hp2) as (v1 & F1 & C1).
  destruct (setter_on_regfile self X1 r1 p1 a1 v1 H1 Hp1) as (v2 & F2 & C2).
  unfold bind. rewrite E1, E2, F1, F2. cbn [snd].
  rewrite B2, B1, C2, C1.
  apply (regfile_update_comm _ X1 r1 p1 a1 X2 r2 p2 a2); assumption.
Qed.

(** When the bus refuses writes, a setter called with a valid pin does not
    raise: it returns [False] after attempting its read and its write, and
    the registers of the device are unchanged. *)
Theorem setter_reports_refused_write (self : PCA9557.t) X reg (pin arg : Z)
  (w : World Faulty.t) :
  In (X, reg) setters -> 0 <= pin <= 7 ->
  Faulty.read_fails (bus w) = false -> Faulty.write_fails (bus w) = true ->
  fst (X self pin arg w) = inr false /\
  bus (snd (X self pin arg w)) = bus w /\
  written_back (PCA9557.addr self) reg w (snd (X self pin arg w))
    (spec_bit_update (current (PCA9557.addr self) reg w) pin arg).
Proof.
  intros HX Hp Hr Hw.
  split; [ | split; [ | apply setter_written_back; assumption ] ];
    destruct (setter_run self X reg pin arg w HX Hp) as (nb & out & _ & E);
    rewrite E; clear E; destruct w as [[rf rd wr] l o];
    cbn [bus Faulty.read_fails Faulty.write_fails] in Hr, Hw; subst rd wr;
    reflexivity.
Qed.

Section MaskedRead.
Context {T : Type} {i2c : I2C T}.

(** When the read of the register raises, a setter called with a valid pin
    goes on as if the register held 0: it writes [1 << pin] for a non-zero
    argument and 0 for argument 0, so every other bit of the register is
    cleared by the write. *)
Theorem setter_after_failed_read (self : PCA9557.t) X reg (pin arg : Z)
  (w : World T) :
  In (X, reg) setters -> 0 <= pin <= 7 ->
  succeeded (fst (readfrom_mem (PCA9557.addr self) reg 1 (bus w))) = false ->
  written_back (PCA9557.addr self) reg w (snd (X self pin arg w))
    (if arg =? 0 then 0 else Z.shiftl 1 pin).
Proof.
  intros HX Hp Hfail.
  pose proof (setter_written_back self X reg pin arg w HX Hp) as Hw.
  unfold current in Hw.
  destruct (fst (readfrom_mem (PCA9557.addr self) reg 1 (bus w)))
    as [e | l]; [ | discriminate ].
  cbn [read_value] in Hw. unfold spec_bit_update in Hw.
  rewrite Z.land_0_l, Z.lor_0_l in Hw. exact Hw.
Qed.

(** The debug flag changes what is printed and nothing else: for every
    pin, valid or not, each setter and [get_pin_value] return the same
    result, issue the same transactions and leave the bus in the same
    state with the flag on as with the flag off. *)
Theorem debug_changes_no_behaviour (addr : Z) (pin arg : Z) (w : World T) :
  let quiet := PCA9557.new addr false in
  let verbose := PCA9557.new addr true in
  (forall X reg, In (X, reg) setters ->
     fst (X verbose pin arg w) = fst (X quiet pin arg w) /\
     calls (snd (X verbose pin arg w)) = calls (snd (X quiet pin arg w)) /\
     bus (snd (X verbose pin arg w)) = bus (snd (X quiet pin arg w))) /\
  (fst (PCA9557.get_pin_value verbose pin w) =
   fst (PCA9557.get_pin_value quiet pin w) /\
   calls (snd (PCA9557.get_pin_value verbose pin w)) =
   calls (snd (PCA9557.get_pin_value quiet pin w)) /\
   bus (snd (PCA9557.get_pin_value verbose pin w)) =
   bus (snd (PCA9557.get_pin_value quiet pin w))).
Proof.
  intros quiet verbose.
  destruct (Z_le_gt_dec 0 pin) as [H0 | H0];
    [ destruct (Z_le_gt_dec pin 7) as [H7 | H7] | ].
  - split.
    + intros X reg HX.
      destruct (setter_run verbose X reg pin arg w HX (conj H0 H7))
        as (b1 & o1 & Hb1 & E1).
      destruct (setter_run quiet X reg pin arg w HX (conj H0 H7))
        as (b2 & o2 & Hb2 & E2).
      cbn [PCA9557.addr quiet verbose] in *.
      assert (b1 = b2) by (apply byte_to_Z_inj; congruence). subst b2.
      rewrite E1, E2. repeat split.
    + destruct (get_pin_value_run verbose pin w (conj H0 H7)) as [o1 E1].
      destruct (get_pin_value_run quiet pin w (conj H0 H7)) as [o2 E2].
      rewrite E1, E2. repeat split.
  - split.
    + intros X reg HX.
      destruct (setter_rejects verbose X reg pin arg w HX) as [o1 E1];
        [ lia | ].
      destruct (setter_rejects quiet X reg pin arg w HX) as [o2 E2];
        [ lia | ].
      rewrite E1, E2. repeat split.
    + destruct (get_pin_value_rejects verbose pin w) as [o1 E1]; [ lia | ].
      destruct (get_pin_value_rejects quiet pin w) as [o2 E2]; [ lia | ].
      rewrite E1, E2. repeat split.
  - split.
    + intros X reg HX.
      destruct (setter_rejects verbose X reg pin arg w HX) as [o1 E1];
        [ lia | ].
      destruct (setter_rejects quiet X reg pin arg w HX) as [o2 E2];
        [ lia | ].
      rewrite E1, E2. repeat split.
    + destruct (get_pin_value_rejects verbose pin w) as [o1 E1]; [ lia | ].
      destruct (get_pin_value_rejects quiet pin w) as [o2 E2]; [ lia | ].
      rewrite E1, E2. repeat split.
Qed.

End MaskedRead.

(** ** What is printed *)

Section Silence.
Context {T : Type} {i2c : I2C T}.
Variable addr : Z.

Lemma read_reg_quiet_run (reg : Z) (w : World T) :
  PCA9557._read_reg (PCA9557.new addr false) reg w =
  (inr (read_value (fst (readfrom_mem addr reg 1 (bus w)))),
   mkWorld (snd (readfrom_mem addr reg 1 (bus w)))
           (calls w ++ [ReadFromMem addr reg 1]) (console w)).
Proof.
  unfold PCA9557._read_reg, try_except, bind, i2c_readfrom_mem.
  cbn [PCA9557.addr PCA9557.debug].
  destruct (readfrom_mem addr reg 1 (bus w)) as [[e | [ | b l]] s];
    reflexivity.
Qed.

Lemma write_reg_quiet_run (reg v : Z) (w : World T) :
  exists ok w',
    PCA9557._write_reg (PCA9557.new addr false) reg v w = (inr ok, w') /\
    console w' = console w.
Proof.
  unfold PCA9557._write_reg, try_except, bind, lift, i2c_writeto_mem.
  cbn [PCA9557.addr PCA9557.debug].
  destruct (bytes [v]) as [e | data].
  - eexists. eexists. split; reflexivity.
  - destruct (writeto_mem addr reg data (bus w)) as [[e | []] s];
      eexists; eexists; split; reflexivity.
Qed.

Ltac quiet_rmw reg w :=
  unfold bind; rewrite (read_reg_quiet_run reg w); cbv beta iota;
  match goal with
  | |- context [PCA9557._write_reg ?s ?r ?v ?w1] =>
      destruct (write_reg_quiet_run r v w1) as (ok & w2 & E & Hc);
      rewrite E; clear E
  end;
  cbv beta iota.

(** With the debug flag off the driver prints nothing: not in a setter,
    not in [get_pin_value], not in [read_all_pins] (whose dump is empty),
    not during construction - whatever the pin and whatever the bus
    does. *)
Theorem silent_without_debug (pin arg : Z) (w : World T) :
  let self := PCA9557.new addr false in
  (forall X reg, In (X, reg) setters ->
     console (snd (X self pin arg w)) = console w) /\
  console (snd (PCA9557.get_pin_value self pin w)) = console w /\
  (console (snd (PCA9557.read_all_pins self w)) = console w /\
   exists regs, fst (PCA9557.read_all_pins self w) = inr (regs, [])) /\
  console (snd (PCA9557.__init__ addr false w)) = console w.
Proof.
  intros self. subst self. split; [ | split; [ | split ] ].
  - intros X reg [E | [E | [E | []]]]; injection E as <- <-.
    + unfold PCA9557.set_pin_mode.
      destruct (pin_in_range pin); cbn [negb]; [ | reflexivity ].
      quiet_rmw PCA9557_CONFIG_REG w. exact Hc.
    + unfold PCA9557.set_pin_value.
      destruct (pin_in_range pin); cbn [negb]; [ | reflexivity ].
      quiet_rmw PCA9557_OUTPUT_REG w.
      cbn [PCA9557.debug]. rewrite andb_false_r. exact Hc.
    + unfold PCA9557.set_pin_polarity.
      destruct (pin_in_range pin); cbn [negb]; [ | reflexivity ].
      quiet_rmw PCA9557_POLARITY_REG w. exact Hc.
  - unfold PCA9557.get_pin_value.
    destruct (pin_in_range pin); cbn [negb]; [ | reflexivity ].
    unfold bind. rewrite read_reg_quiet_run. reflexivity.
  - unfold PCA9557.read_all_pins, bind.
    rewrite !read_reg_quiet_run. cbn [bus calls console PCA9557.debug].
    split; [ reflexivity | eexists; reflexivity ].
  - unfold PCA9557.__init__, try_except, bind, when, ret.
    rewrite !read_reg_quiet_run. cbn [bus calls console].
    match goal with
    | |- context [PCA9557._write_reg ?s ?r ?v ?w1] =>
        destruct (write_reg_quiet_run r v w1) as (ok1 & w2 & E1 & Hc1);
        rewrite E1; clear E1
    end.
    match goal with
    | |- context [PCA9557._write_reg ?s ?r ?v ?w1] =>
        destruct (write_reg_quiet_run r v w1) as (ok2 & w3 & E2 & Hc2);
        rewrite E2; clear E2
    end.
    cbn [snd]. rewrite Hc2, Hc1. reflexivity.
Qed.

End Silence.

(** ** [read_all_pins] *)

Section Dump.
Context {T : Type} {i2c : I2C T}.

Ltac next_read :=
  match goal with
  | |- context [PCA9557._read_reg ?s ?r ?w] =>
      let out := fresh "out" in
      let E := fresh "E" in
      destruct (read_reg_run s r w) as [out E]; rewrite E; clear E;
      cbv beta iota; cbn [bus calls console]
  end.

(** [read_all_pins] never raises and never writes: on every transport it
    issues four one-byte reads, of the input, output, config and polarity
    registers in this order, and returns four values between 0 and 255;
    the dump has five lines when the debug flag is on and none when it is
    off. *)
Theorem read_all_pins_observes (self : PCA9557.t) (w : World T) :
  let a := PCA9557.addr self in
  exists i o c p lines w',
    PCA9557.read_all_pins self w = (inr ((i, o, c, p), lines), w') /\
    issued w w' [ ReadFromMem a PCA9557_INPUT_REG 1;
                  ReadFromMem a PCA9557_OUTPUT_REG 1;
                  ReadFromMem a PCA9557_CONFIG_REG 1;
                  ReadFromMem a PCA9557_POLARITY_REG 1 ] /\
    (0 <= i < 256 /\ 0 <= o < 256 /\ 0 <= c < 256 /\ 0 <= p < 256) /\
    i = current a PCA9557_INPUT_REG w /\
    length lines = if PCA9557.debug self then 5%nat else 0%nat.
Proof.
  intros a. unfold PCA9557.read_all_pins, bind.
  next_read. next_read. next_read. next_read.
  do 6 eexists. split; [ reflexivity | ].
  split; [ unfold issued; cbn [calls]; rewrite <- !app_assoc; reflexivity | ].
  split; [ repeat split; apply read_value_range | ].
  split; [ reflexivity | ].
  destruct (PCA9557.debug self); reflexivity.
Qed.

End Dump.

(** On the simulated device [read_all_pins] returns the contents of the
    input, output, config and polarity registers, in this order, and
    leaves the device as it was. *)
Theorem read_all_pins_on_regfile (self : PCA9557.t) (w : World RegFile.t) :
  let rf := bus w in
  exists lines w',
    PCA9557.read_all_pins self w =
    (inr ((byte_to_Z (RegFile.input rf), byte_to_Z (RegFile.output rf),
           byte_to_Z (RegFile.config rf), byte_to_Z (RegFile.polarity rf)),
          lines), w') /\
    bus w' = rf.
Proof.
  destruct w as [[i o p c] l out]. destruct self as [a [ | ]];
    eexists; eexists; split; reflexivity.
Qed.

(** ** [_format_binary] *)

Lemma format_binary_bits (self : PCA9557.t) (value : Z) :
  PCA9557._format_binary self value =
  String.string_of_list_ascii
    (map (fun i => bit_char (Z.testbit value i)) [7; 6; 5; 4; 3; 2; 1; 0]).
Proof.
  unfold PCA9557._format_binary. cbn [fold_left map].
  rewrite !truthy_mask by lia.
  repeat match goal with
         | |- context [Z.testbit value ?i] => destruct (Z.testbit value i)
         end;
    reflexivity.
Qed.

Lemma bit_char_inj (b1 b2 : bool) : bit_char b1 = bit_char b2 -> b1 = b2.
Proof.
  destruct b1, b2; cbn; intros E; solve [ reflexivity | discriminate E ].
Qed.

(** [_format_binary] returns eight characters for every integer, negative
    or larger than a byte included. *)
Theorem format_binary_length (self : PCA9557.t) (value : Z) :
  String.length (PCA9557._format_binary self value) = 8%nat.
Proof.
  rewrite format_binary_bits. reflexivity.
Qed.

(** Character [k] of the string, counted from the left, is "1" when bit
    [7 - k] of the value is set and "0" when it is not: the most
    significant bit comes first. *)
Theorem format_binary_char (self : PCA9557.t) (value : Z) (k : nat) :
  (k < 8)%nat ->
  String.get k (PCA9557._format_binary self value) =
  Some (bit_char (Z.testbit value (7 - Z.of_nat k))).
Proof.
  intros Hk. rewrite format_binary_bits.
  do 8 (destruct k as [ | k]; [ reflexivity | ]). lia.
Qed.

(** Two integers get the same string exactly when they agree modulo 256:
    the string shows the low eight bits and nothing else, and different
    register values always give different strings. *)
Theorem format_binary_low_byte (self : PCA9557.t) (u v : Z) :
  PCA9557._format_binary self u = PCA9557._format_binary self v <->
  u mod 256 = v mod 256.
Proof.
  change 256 with (2 ^ 8). rewrite !format_binary_bits. cbn [map].
  split.
  - intros E. cbn [String.string_of_list_ascii] in E.
    injection E as E7 E6 E5 E4 E3 E2 E1 E0.
    apply bit_char_inj in E7, E6, E5, E4, E3, E2, E1, E0.
    apply Z.bits_inj'. intros i Hi.
    destruct (Z.lt_ge_cases i 8) as [Hlt | Hge].
    + rewrite !Z.mod_pow2_bits_low by exact Hlt.
      assert (Hcases : i = 0 \/ i = 1 \/ i = 2 \/ i = 3 \/
                       i = 4 \/ i = 5 \/ i = 6 \/ i = 7) by lia.
      destruct Hcases as [-> | [-> | [-> | [-> | [-> | [-> | [-> | ->]]]]]]];
        assumption.
    + rewrite !Z.mod_pow2_bits_high by lia. reflexivity.
  - intros E.
    assert (Hbit : forall i, 0 <= i < 8 -> Z.testbit u i = Z.testbit v i).
    { intros i Hi.
      rewrite <- (Z.mod_pow2_bits_low u 8 i), <- (Z.mod_pow2_bits_low v 8 i)
        by lia.
      rewrite E. reflexivity. }
    rewrite !(Hbit _) by lia. reflexivity.
Qed.

(** The example of the docstring, and a negative number. *)
Example format_binary_examples :
  PCA9557._format_binary expander 0x2D = "00101101"%string /\
  PCA9557._format_binary expander 0x12D = "00101101"%string /\
  PCA9557._format_binary expander (-1) = "11111111"%string.
Proof.
  repeat split; reflexivity.
Qed.

(** [format_binary_char] at the leftmost character of 0x80. *)
Lemma format_binary_char_witness :
  (0 < 8)%nat /\
  String.get 0 (PCA9557._format_binary expander 0x80) =
  Some (bit_char (Z.testbit 0x80 (7 - Z.of_nat 0))).
Proof.
  assert (Hk : (0 < 8)%nat) by lia.
  split; [ exact Hk | ].
  exact (format_binary_char expander 0x80 0 Hk).
Defined.

(** [format_binary_low_byte] at 0x12D and 0x2D. *)
Lemma format_binary_low_byte_witness :
  0x12D mod 256 = 0x2D mod 256 /\
  PCA9557._format_binary expander 0x12D =
  PCA9557._format_binary expander 0x2D.
Proof.
  assert (E : 0x12D mod 256 = 0x2D mod 256) by reflexivity.
  split; [ exact E | ].
  exact (proj2 (format_binary_low_byte expander 0x12D 0x2D) E).
Defined.

(** ** The aliases and the pin adapter *)

Section Adapter.
Context {T : Type} {i2c : I2C T}.

(** [pin_value], [write_output] and [set_pin_value] do the same thing for
    every pin and every integer level: the same as [pin_low] for level 0
    and the same as [pin_high] for any other level. *)
Theorem output_aliases_agree (self : PCA9557.t) (pin v : Z) (w : World T) :
  PCA9557.pin_value self pin v w = PCA9557.set_pin_value self pin v w /\
  PCA9557.write_output self pin v w = PCA9557.set_pin_value self pin v w /\
  PCA9557.set_pin_value self pin v w =
  (if v =? 0 then PCA9557.pin_low self pin w
   else PCA9557.pin_high self pin w).
Proof.
  assert (Hhigh : v <> 0 ->
            PCA9557.set_pin_value self pin v w =
            PCA9557.set_pin_value self pin PIN_HIGH w).
  { intros Hv. apply Z.eqb_neq in Hv.
    unfold PCA9557.set_pin_value, PIN_LOW, truthy. rewrite Hv.
    reflexivity. }
  unfold PCA9557.pin_value, PCA9557.write_output, PCA9557.pin_low,
    PCA9557.pin_high, truthy.
  destruct (Z.eqb_spec v 0) as [-> | Hv]; cbn [negb].
  - repeat split.
  - rewrite (Hhigh Hv). repeat split.
Qed.

(** [PCA9557Pin.init] with a mode and a valid pin always returns the
    adapter, whatever the bus does.  Mode 1 sets the pin's bit of the
    config register (input); every other mode, 2 included, clears it
    (output) - unlike [set_pin_mode], for which every non-zero mode means
    input.  Without a mode nothing happens at all; [pull] is ignored. *)
Theorem adapter_init_maps_mode (self : PCA9557Pin.t) (m : Z)
  (pull : option Z) (w : World T) :
  let pin := PCA9557Pin.pin_num self in
  let a := PCA9557.addr (PCA9557Pin.pca9557 self) in
  let c := current a PCA9557_CONFIG_REG w in
  0 <= pin <= 7 ->
  fst (PCA9557Pin.init self (Some m) pull w) = inr self /\
  written_back a PCA9557_CONFIG_REG w
    (snd (PCA9557Pin.init self (Some m) pull w))
    (if m =? 1
     then Z.lor c (Z.shiftl 1 pin)
     else Z.land c (Z.lnot (Z.shiftl 1 pin))) /\
  PCA9557Pin.init self None pull w = (inr self, w).
Proof.
  intros pin a c Hp.
  assert (HX : In (PCA9557.set_pin_mode, PCA9557_CONFIG_REG)
                  (@setters T i2c)) by (left; reflexivity).
  pose proof (setter_written_back (PCA9557Pin.pca9557 self) _ _ pin
                (if m =? 1 then PIN_INPUT else PIN_OUTPUT) w HX Hp) as Hw.
  destruct (setter_returns (PCA9557Pin.pca9557 self) _ _ pin
              (if m =? 1 then PIN_INPUT else PIN_OUTPUT) w HX)
    as (ok & w' & E).
  unfold PCA9557Pin.init, bind. fold pin. rewrite E in *.
  cbn [fst snd] in *. fold a c in Hw.
  split; [ reflexivity | ]. split; [ | reflexivity ].
  destruct (m =? 1); exact Hw.
Qed.

(** The adapter never checks its pin number.  With a pin below 0 or above
    7 it is built all the same, and then every operation fails without
    any bus traffic: [value()] returns -1, [value(v)], [on()] and [off()]
    return [False]. *)
Theorem adapter_ignores_invalid_pin (pca : PCA9557.t) (pin : Z)
  (debug : bool) (w : World T) :
  pin < 0 \/ 7 < pin ->
  let self := PCA9557Pin.new pca pin debug in
  (fst (PCA9557Pin.__init__ pca pin debug w) = inr self /\
   untouched w (snd (PCA9557Pin.__init__ pca pin debug w))) /\
  (fst (PCA9557Pin.value self None w) = inr (PyInt (-1)) /\
   untouched w (snd (PCA9557Pin.value self None w))) /\
  (forall v,
     fst (PCA9557Pin.value self (Some v) w) = inr (PyBool false) /\
     untouched w (snd (PCA9557Pin.value self (Some v) w))) /\
  (fst (PCA9557Pin.on self w) = inr false /\
   untouched w (snd (PCA9557Pin.on self w))) /\
  (fst (PCA9557Pin.off self w) = inr false /\
   untouched w (snd (PCA9557Pin.off self w))).
Proof.
  intros Hp self.
  assert (HM : In (PCA9557.set_pin_mode, PCA9557_CONFIG_REG)
                  (@setters T i2c)) by (left; reflexivity).
  assert (HV : In (PCA9557.set_pin_value, PCA9557_OUTPUT_REG)
                  (@setters T i2c)) by (right; left; reflexivity).
  assert (Hset : forall v,
            exists out, PCA9557.set_pin_value pca pin v w =
                        (inr false, mkWorld (bus w) (calls w) out)).
  { intros v. exact (setter_rejects pca _ _ pin v w HV Hp). }
  unfold untouched, PCA9557Pin.on, PCA9557Pin.off.
  cbn [PCA9557Pin.pca9557 PCA9557Pin.pin_num self].
  split; [ | split; [ | split; [ | split ] ] ].
  - destruct (setter_rejects pca _ _ pin PIN_OUTPUT w HM Hp) as [out E].
    unfold PCA9557Pin.__init__, bind. rewrite E.
    destruct debug; repeat split.
  - destruct (get_pin_value_rejects pca pin w Hp) as [out E].
    unfold PCA9557Pin.value, bind.
    cbn [PCA9557Pin.pca9557 PCA9557Pin.pin_num self]. rewrite E.
    repeat split.
  - intros v.
    destruct (Hset (if truthy v then PIN_HIGH else PIN_LOW)) as [out E].
    unfold PCA9557Pin.value, bind.
    cbn [PCA9557Pin.pca9557 PCA9557Pin.pin_num self]. rewrite E.
    repeat split.
  - destruct (Hset PIN_HIGH) as [out E]. rewrite E. repeat split.
  - destruct (Hset PIN_LOW) as [out E]. rewrite E. repeat split.
Qed.

End Adapter.

(** On the simulated device, building an adapter for a valid pin makes
    that pin an output: its bit of the config register becomes 0, the other
    bits of the config register and the other three registers stay as they
    were. *)
Theorem adapter_makes_pin_output (pca : PCA9557.t) (pin : Z) (debug : bool)
  (w : World RegFile.t) :
  0 <= pin <= 7 ->
  let rf := bus w in
  let rf' := bus (snd (PCA9557Pin.__init__ pca pin debug w)) in
  fst (PCA9557Pin.__init__ pca pin debug w)
  = inr (PCA9557Pin.new pca pin debug) /\
  Z.testbit (byte_to_Z (RegFile.config rf')) pin = false /\
  (forall i, i <> pin ->
     Z.testbit (byte_to_Z (RegFile.config rf')) i =
     Z.testbit (byte_to_Z (RegFile.config rf)) i) /\
  RegFile.input rf' = RegFile.input rf /\
  RegFile.output rf' = RegFile.output rf /\
  RegFile.polarity rf' = RegFile.polarity rf.
Proof.
  intros Hp rf rf'. subst rf rf'.
  assert (HM : In (PCA9557.set_pin_mode, PCA9557_CONFIG_REG)
                  (@setters RegFile.t _)) by (left; reflexivity).
  destruct (setter_on_regfile pca _ _ pin PIN_OUTPUT w HM Hp)
    as (w' & E & Hbus).
  pose proof (regfile_update_get (bus w) _ _ pin PIN_OUTPUT HM Hp) as Hget.
  assert (Hsame : bus (snd (PCA9557Pin.__init__ pca pin debug w)) = bus w').
  { unfold PCA9557Pin.__init__, bind. rewrite E.
    destruct debug; reflexivity. }
  assert (Hres : fst (PCA9557Pin.__init__ pca pin debug w)
                 = inr (PCA9557Pin.new pca pin debug)).
  { unfold PCA9557Pin.__init__, bind. rewrite E.
    destruct debug; reflexivity. }
  rewrite Hsame, Hbus. clear Hsame E Hbus.
  change (RegFile.config (regfile_update (bus w) PCA9557_CONFIG_REG pin
                            PIN_OUTPUT))
    with (RegFile.get (regfile_update (bus w) PCA9557_CONFIG_REG pin
                         PIN_OUTPUT) PCA9557_CONFIG_REG).
  change (RegFile.config (bus w))
    with (RegFile.get (bus w) PCA9557_CONFIG_REG).
  rewrite Hget.
  split; [ exact Hres | ]. split; [ | split ].
  - rewrite spec_bit_update_testbit, Z.eqb_refl by lia. reflexivity.
  - intros i Hi.
    destruct (Z.lt_ge_cases i 0) as [Hneg | Hpos].
    + rewrite !Z.testbit_neg_r by exact Hneg. reflexivity.
    + rewrite spec_bit_update_testbit by lia.
      destruct (Z.eqb_spec pin i) as [<- | _];
        [ contradiction | reflexivity ].
  - destruct (bus w) as [i o p c]. repeat split.
Qed.

(** ** The further properties at concrete inputs *)

(** [setter_changes_one_bit] at [set_pin_value(6, 0)]. *)
Lemma setter_changes_one_bit_witness :
  (In (PCA9557.set_pin_value, PCA9557_OUTPUT_REG) (@setters RegFile.t _) /\
   0 <= 6 <= 7) /\
  fst (PCA9557.set_pin_value expander 6 0 (boot scenario_regs)) = inr true.
Proof.
  assert (HX : In (PCA9557.set_pin_value, PCA9557_OUTPUT_REG)
                  (@setters RegFile.t _)) by (right; left; reflexivity).
  assert (Hp : 0 <= 6 <= 7) by lia.
  split; [ exact (conj HX Hp) | ].
  exact (proj1 (setter_changes_one_bit expander _ _ 6 0
                  (boot scenario_regs) HX Hp)).
Defined.

(** [setter_last_write_wins] at [set_pin_mode(1, 0)] followed by
    [set_pin_mode(1, 1)]. *)
Lemma setter_last_write_wins_witness :
  (In (PCA9557.set_pin_mode, PCA9557_CONFIG_REG) (@setters RegFile.t _) /\
   0 <= 1 <= 7) /\
  bus (snd (bind (PCA9557.set_pin_mode expander 1 0)
                 (fun _ => PCA9557.set_pin_mode expander 1 1)
                 (boot scenario_regs))) =
  bus (snd (PCA9557.set_pin_mode expander 1 1 (boot scenario_regs))).
Proof.
  assert (HX : In (PCA9557.set_pin_mode, PCA9557_CONFIG_REG)
                  (@setters RegFile.t _)) by (left; reflexivity).
  assert (Hp : 0 <= 1 <= 7) by lia.
  split; [ exact (conj HX Hp) | ].
  exact (setter_last_write_wins expander _ _ 1 0 1 (boot scenario_regs)
           HX Hp).
Defined.

(** [setters_commute] at [set_pin_mode(0, 0)] and [set_pin_mode(7, 0)]. *)
Lemma setters_commute_witness :
  (In (PCA9557.set_pin_mode, PCA9557_CONFIG_REG) (@setters RegFile.t _) /\
   0 <= 0 <= 7 /\ 0 <= 7 <= 7 /\
   (PCA9557_CONFIG_REG <> PCA9557_CONFIG_REG \/ 0 <> 7)) /\
  bus (snd (bind (PCA9557.set_pin_mode expander 0 0)
                 (fun _ => PCA9557.set_pin_mode expander 7 0)
                 (boot scenario_regs))) =
  bus (snd (bind (PCA9557.set_pin_mode expander 7 0)
                 (fun _ => PCA9557.set_pin_mode expander 0 0)
                 (boot scenario_regs))).
Proof.
  assert (HX : In (PCA9557.set_pin_mode, PCA9557_CONFIG_REG)
                  (@setters RegFile.t _)) by (left; reflexivity).
  assert (Hp : 0 <= 0 <= 7) by lia.
  assert (Hq : 0 <= 7 <= 7) by lia.
  assert (Hne : PCA9557_CONFIG_REG <> PCA9557_CONFIG_REG \/ 0 <> 7)
    by (right; discriminate).
  split; [ exact (conj HX (conj Hp (conj Hq Hne))) | ].
  exact (setters_commute expander _ _ 0 0 _ _ 7 0 (boot scenario_regs)
           HX HX Hp Hq Hne).
Defined.

(** [setter_reports_refused_write] at [set_pin_polarity(2, 1)]. *)
Lemma setter_reports_refused_write_witness :
  (In (PCA9557.set_pin_polarity, PCA9557_POLARITY_REG)
      (@setters Faulty.t _) /\
   0 <= 2 <= 7 /\
   Faulty.read_fails write_refusing_bus = false /\
   Faulty.write_fails write_refusing_bus = true) /\
  fst (PCA9557.set_pin_polarity expander 2 1 (boot write_refusing_bus))
  = inr false /\
  bus (snd (PCA9557.set_pin_polarity expander 2 1
              (boot write_refusing_bus))) = write_refusing_bus.
Proof.
  assert (HX : In (PCA9557.set_pin_polarity, PCA9557_POLARITY_REG)
                  (@setters Faulty.t _))
    by (right; right; left; reflexivity).
  assert (Hp : 0 <= 2 <= 7) by lia.
  split; [ exact (conj HX (conj Hp (conj eq_refl eq_refl))) | ].
  pose proof (setter_reports_refused_write expander _ _ 2 1
                (boot write_refusing_bus) HX Hp eq_refl eq_refl) as H.
  exact (conj (proj1 H) (proj1 (proj2 H))).
Defined.

(** [setter_after_failed_read] at [set_pin_mode(3, 1)] on a bus whose
    reads raise: 0x08 is written over a config register that held 0xFF. *)
Lemma setter_after_failed_read_witness :
  (In (PCA9557.set_pin_mode, PCA9557_CONFIG_REG) (@setters Faulty.t _) /\
   0 <= 3 <= 7 /\
   succeeded (fst (readfrom_mem PCA9557_ADDR PCA9557_CONFIG_REG 1
                     read_refusing_bus)) = false) /\
  written_back PCA9557_ADDR PCA9557_CONFIG_REG (boot read_refusing_bus)
    (snd (PCA9557.set_pin_mode expander 3 1 (boot read_refusing_bus)))
    (Z.shiftl 1 3).
Proof.
  assert (HX : In (PCA9557.set_pin_mode, PCA9557_CONFIG_REG)
                  (@setters Faulty.t _)) by (left; reflexivity).
  assert (Hp : 0 <= 3 <= 7) by lia.
  split; [ exact (conj HX (conj Hp eq_refl)) | ].
  exact (setter_after_failed_read expander _ _ 3 1 (boot read_refusing_bus)
           HX Hp eq_refl).
Defined.

(** [debug_changes_no_behaviour] at [set_pin_mode(3, 1)]. *)
Lemma debug_changes_no_behaviour_witness :
  In (PCA9557.set_pin_mode, PCA9557_CONFIG_REG) (@setters RegFile.t _) /\
  fst (PCA9557.set_pin_mode (PCA9557.new PCA9557_ADDR true) 3 1
         (boot scenario_regs)) =
  fst (PCA9557.set_pin_mode (PCA9557.new PCA9557_ADDR false) 3 1
         (boot scenario_regs)).
Proof.
  assert (HX : In (PCA9557.set_pin_mode, PCA9557_CONFIG_REG)
                  (@setters RegFile.t _)) by (left; reflexivity).
  split; [ exact HX | ].
  exact (proj1 (proj1 (debug_changes_no_behaviour PCA9557_ADDR 3 1
                         (boot scenario_regs)) _ _ HX)).
Defined.

(** [silent_without_debug] at [set_pin_value(9, 1)] on the bus that
    refuses writes. *)
Lemma silent_without_debug_witness :
  In (PCA9557.set_pin_value, PCA9557_OUTPUT_REG) (@setters Faulty.t _) /\
  console (snd (PCA9557.set_pin_value (PCA9557.new PCA9557_ADDR false) 9 1
                  (boot write_refusing_bus))) = [].
Proof.
  assert (HX : In (PCA9557.set_pin_value, PCA9557_OUTPUT_REG)
                  (@setters Faulty.t _)) by (right; left; reflexivity).
  split; [ exact HX | ].
  exact (proj1 (silent_without_debug PCA9557_ADDR 9 1
                  (boot write_refusing_bus)) _ _ HX).
Defined.

(** [adapter_init_maps_mode] at [init(2)] on the adapter of pin 5. *)
Lemma adapter_init_maps_mode_witness :
  0 <= 5 <= 7 /\
  written_back PCA9557_ADDR PCA9557_CONFIG_REG (boot scenario_regs)
    (snd (PCA9557Pin.init (PCA9557Pin.new expander 5 false) (Some 2) None
            (boot scenario_regs)))
    (Z.land (current PCA9557_ADDR PCA9557_CONFIG_REG (boot scenario_regs))
            (Z.lnot (Z.shiftl 1 5))).
Proof.
  assert (Hp : 0 <= 5 <= 7) by lia.
  split; [ exact Hp | ].
  exact (proj1 (proj2 (adapter_init_maps_mode
                         (PCA9557Pin.new expander 5 false) 2 None
                         (boot scenario_regs) Hp))).
Defined.

(** [adapter_ignores_invalid_pin] at pin 8. *)
Lemma adapter_ignores_invalid_pin_witness :
  (8 < 0 \/ 7 < 8) /\
  fst (PCA9557Pin.__init__ expander 8 false (boot scenario_regs))
  = inr (PCA9557Pin.new expander 8 false) /\
  untouched (boot scenario_regs)
    (snd (PCA9557Pin.__init__ expander 8 false (boot scenario_regs))).
Proof.
  assert (Hp : 8 < 0 \/ 7 < 8) by (right; lia).
  split; [ exact Hp | ].
  exact (proj1 (adapter_ignores_invalid_pin expander 8 false
                  (boot scenario_regs) Hp)).
Defined.

(** [adapter_makes_pin_output] at pin 4 of the scenario's device. *)
Lemma adapter_makes_pin_output_witness :
  0 <= 4 <= 7 /\
  Z.testbit
    (byte_to_Z
       (RegFile.config
          (bus (snd (PCA9557Pin.__init__ expander 4 false
                       (boot scenario_regs)))))) 4 = false.
Proof.
  assert (Hp : 0 <= 4 <= 7) by lia.
  split; [ exact Hp | ].
  exact (proj1 (proj2 (adapter_makes_pin_output expander 4 false
                         (boot scenario_regs) Hp))).
Defined.
